(** * TimeDistributedLayer: a shallow embedding of
      tensorlayer/layers/time_distribution.py

    The layer applies an inner layer class to every timestep of a
    (batch, time, feature) tensor under one shared TensorFlow variable
    scope.  The file is graph-construction glue: all it does is drive the
    variable-scope machinery, the tensor engine (stack / unstack /
    transpose) and the bookkeeping hooks of the base layer.

    Layout of the development:
    - Python values, exceptions, and a state-and-exception monad in which
      the state survives an exception (Python does not roll mutations back);
    - the process-wide graph state of TensorFlow 1.x (variable store,
      current variable scope, a chronological trace of scope / creation /
      collection events);
    - the base [Layer] and [InputLayer] the source imports;
    - [TimeDistributedLayer] itself, statement by statement;
    - theorems. *)

From stdpp Require Import base list strings pretty.
From Stdlib Require Import Ascii.

(** ** Python values and exceptions *)

Inductive Exn : Type :=
| KeyError | AttributeError | TypeError | IndexError | ValueError.

Global Instance Exn_eq_dec : EqDecision Exn.
Proof. solve_decision. Defined.

Inductive Result (A : Type) : Type :=
| Ok (a : A)
| Raise (e : Exn).
Arguments Ok {A} a.
Arguments Raise {A} e.

(** An attribute of a Python object is either absent from the object
    (reading it raises [AttributeError]) or bound to a value. *)
Inductive attr (A : Type) : Type :=
| Unset
| Bound (a : A).
Arguments Unset {A}.
Arguments Bound {A} a.

(** Values found in the keyword dictionary [layer_args]. *)
Inductive PyVal : Type :=
| PyInt (z : Z)
| PyStr (s : string).

(** A Python dict keeps insertion order, which its [repr] shows; it is an
    association list here, read by first match. *)
Definition Args : Type := list (string * PyVal).

Fixpoint dict_get (d : Args) (k : string) : option PyVal :=
  match d with
  | [] => None
  | (k', v) :: d' => if bool_decide (k' = k) then Some v else dict_get d' k
  end.

Definition repr (v : PyVal) : string :=
  match v with
  | PyInt z => pretty z
  | PyStr s => "'" +:+ s +:+ "'"
  end.

Fixpoint repr_items (d : Args) : string :=
  match d with
  | [] => ""
  | [(k, v)] => "'" +:+ k +:+ "': " +:+ repr v
  | (k, v) :: d' => "'" +:+ k +:+ "': " +:+ repr v +:+ ", " +:+ repr_items d'
  end.

(** [str(d)] of a dict whose keys are strings (quote characters inside the
    strings are not escaped here). *)
Definition repr_dict (d : Args) : string := "{" +:+ repr_items d +:+ "}".

(** [str(i)] of a non-negative loop index. *)
Definition str (i : nat) : string := pretty i.

(** ** Tensors of the symbolic graph *)

Definition Shape : Type := list nat.

#[local] Set Warnings "-register-all".
Inductive Node : Type :=
| NPlaceholder (name : string)
| NStack (values : list Node) (axis : nat) (name : string)
| NUnstack (value : Node) (axis : nat) (i : nat)
| NTranspose (a : Node) (perm : list nat)
| NApply (op : string) (weights : list string) (input : Node).

Record Tensor : Type := { node : Node; shape : Shape }.

(** What a layer may hold in [inputs] / [outputs]: one tensor
    ([isinstance(_, tf.Tensor)]) or a Python sequence of tensors. *)
Inductive TensorLike : Type :=
| One (t : Tensor)
| Many (ts : list Tensor).

(** ** TensorFlow graph state *)

Record TFVariable : Type := { var_name : string; var_shape : Shape }.

(** The [reuse] flag of a variable scope: [False]/[None], [True] or
    [tf.AUTO_REUSE]. *)
Inductive Reuse : Type := NoReuse | ReuseTrue | AUTO_REUSE.

Global Instance Reuse_eq_dec : EqDecision Reuse.
Proof. solve_decision. Defined.

Record VariableScope : Type := { vs_name : string; vs_reuse : Reuse }.

Inductive Event : Type :=
| EnterScope (vs : VariableScope)
| CreateVariable (v : TFVariable)
| GetCollection (scope : string).

Record Graph : Type := {
  variables : list TFVariable;      (* the variables collection, in creation order *)
  current_scope : VariableScope;    (* tf.get_variable_scope() *)
  trace : list Event                (* oldest first *)
}.

(** ** Layers *)

(** A constructed layer, as the next layer sees it. *)
Record LayerObj : Type := {
  l_outputs : TensorLike;
  l_all_layers : list Tensor;
  l_all_params : list TFVariable
}.

Record InputLayerObj : Type := { il_outputs : Tensor; il_name : string }.

(** A layer class usable as [layer_class].  Given its keyword arguments
    and the shape of the slice it is applied to, it either rejects them or
    asks the current variable scope for a list of variables (names relative
    to the scope, with shapes) through [tf.get_variable] and yields an
    output of some shape.  [cls_name] is its [__name__], which a callable
    that is not a class may lack. *)
Record LayerClass : Type := {
  cls_name : option string;
  cls_spec : Args -> Shape -> Result (list (string * Shape) * Shape)
}.

(** The attributes of a [TimeDistributedLayer] object. *)
Record Instance : Type := {
  prev_layer : option LayerObj;
  layer_class : attr (option LayerClass);
  layer_args : attr (option Args);
  name : string;
  inputs : option TensorLike;
  outputs : option Tensor;
  _local_weights : attr (list TFVariable);
  all_layers : list Tensor;
  all_params : list TFVariable
}.

Record World : Type := { graph : Graph; self : Instance }.

(** ** The state-and-exception monad *)

Definition M (A : Type) : Type := World -> World * Result A.

Definition ret {A} (a : A) : M A := fun w => (w, Ok a).

Definition raise {A} (e : Exn) : M A := fun w => (w, Raise e).

Definition bind {A B} (m : M A) (k : A -> M B) : M B :=
  fun w =>
    match m w with
    | (w', Ok a) => k a w'
    | (w', Raise e) => (w', Raise e)
    end.

Definition lift {A} (r : Result A) : M A := fun w => (w, r).

Declare Scope py_scope.
Delimit Scope py_scope with py.
Notation "x <- m ;; k" := (bind m (fun x => k))
  (at level 100, m at next level, right associativity) : py_scope.
Notation "m ;; k" := (bind m (fun _ => k))
  (at level 100, right associativity) : py_scope.
Open Scope py_scope.

Definition get_graph : M Graph := fun w => (w, Ok (graph w)).
Definition put_graph (g : Graph) : M unit :=
  fun w => ({| graph := g; self := self w |}, Ok tt).
Definition get_self : M Instance := fun w => (w, Ok (self w)).
Definition put_self (s : Instance) : M unit :=
  fun w => ({| graph := graph w; self := s |}, Ok tt).

(** Reading an attribute that may be absent. *)
Definition getattr {A} (f : Instance -> attr A) : M A :=
  s <- get_self ;;
  match f s with
  | Bound a => ret a
  | Unset => raise AttributeError
  end.

(** [for i in range(lo, lo + n): l = body i l], with the loop-carried
    local [l]. *)
Fixpoint for_range {L : Type} (lo n : nat) (body : nat -> L -> M L) (l : L) : M L :=
  match n with
  | 0 => ret l
  | S n' => l' <- body lo l ;; for_range (S lo) n' body l'
  end.

(** [l[i]] on a Python list. *)
Definition getitem {A} (l : list A) (i : nat) : M A :=
  match l !! i with
  | Some a => ret a
  | None => raise IndexError
  end.

(** ** The TensorFlow 1.x operations the layer calls *)

Module tf.

(** [tf.get_variable_scope()]. *)
Definition get_variable_scope : M VariableScope :=
  g <- get_graph ;; ret (current_scope g).

Definition log (e : Event) : M unit :=
  g <- get_graph ;;
  put_graph {| variables := variables g;
               current_scope := current_scope g;
               trace := trace g ++ [e] |}.

Definition set_scope (vs : VariableScope) : M unit :=
  g <- get_graph ;;
  put_graph {| variables := variables g;
               current_scope := vs;
               trace := trace g |}.

(** Name of a scope or variable [n] opened inside the scope named
    [outer]. *)
Definition join (outer n : string) : string :=
  if bool_decide (outer = "") then n else outer +:+ "/" +:+ n.

(** The flag of a scope opened with [reuse=r] inside a scope whose flag
    is [outer]: a false [r] inherits, anything else overrides. *)
Definition inherit (r outer : Reuse) : Reuse :=
  match r with
  | NoReuse => outer
  | _ => r
  end.

(** The names a scope can be entered with wherever it is entered: a
    letter, a digit or a dot, followed by letters, digits, dots and the
    characters [_], [-] and [/].  The library raises [ValueError] for a name
    it does not accept, before the block is run. *)
Definition name_start : string :=
  "ABCDEFGHIJKLMNOPQRSTUVWXYZabcdefghijklmnopqrstuvwxyz0123456789.".

Definition char_in (cs : string) (c : ascii) : bool :=
  existsb (Ascii.eqb c) (String.list_ascii_of_string cs).

Definition valid_scope_name (n : string) : bool :=
  match n with
  | EmptyString => false
  | String c n' =>
      char_in name_start c
      && forallb (char_in (name_start +:+ "_-/")) (String.list_ascii_of_string n')
  end.

(** [with tf.variable_scope(n, reuse=r) as vs: body vs], for a name [n]
    the library accepts ([valid_scope_name]); its check of the name is not
    part of this model.  The scope that was current is restored on the way
    out, also when the body raises. *)
Definition variable_scope {A} (n : string) (r : Reuse)
    (body : VariableScope -> M A) : M A :=
  outer <- get_variable_scope ;;
  let vs := {| vs_name := join (vs_name outer) n;
               vs_reuse := inherit r (vs_reuse outer) |} in
  log (EnterScope vs) ;;
  set_scope vs ;;
  fun w =>
    match body vs w with
    | (w', res) =>
        match set_scope outer w' with
        | (w'', _) => (w'', res)
        end
    end.

Fixpoint find_variable (vars : list TFVariable) (full : string) : option TFVariable :=
  match vars with
  | [] => None
  | v :: vars' =>
      if bool_decide (var_name v = full) then Some v else find_variable vars' full
  end.

(** [tf.get_variable(n, shape=s)] in the current scope: a reusing scope
    looks the variable up and fails when it is missing or has another
    shape; a non-reusing scope creates it and fails when it exists;
    [AUTO_REUSE] does whichever applies. *)
Definition get_variable (n : string) (s : Shape) : M TFVariable :=
  g <- get_graph ;;
  let vs := current_scope g in
  let full := join (vs_name vs) n in
  match find_variable (variables g) full, vs_reuse vs with
  | Some v, NoReuse => raise ValueError
  | Some v, _ =>
      if bool_decide (var_shape v = s) then ret v else raise ValueError
  | None, ReuseTrue => raise ValueError
  | None, _ =>
      let v := {| var_name := full; var_shape := s |} in
      put_graph {| variables := variables g ++ [v];
                   current_scope := vs;
                   trace := trace g ++ [CreateVariable v] |} ;;
      ret v
  end.

(** [re.match(pattern, nm)] for a pattern made of the characters a scope
    name is made of (letters, digits, [_], [-], [/] and [.]): each of them
    stands for itself, except the dot, which stands for any character but
    the newline.  The pattern has to match from the start of the name, and
    need not reach its end. *)
Fixpoint re_match (pattern nm : string) : bool :=
  match pattern with
  | EmptyString => true
  | String p pattern' =>
      match nm with
      | EmptyString => false
      | String c nm' =>
          (if Ascii.eqb p "."%char then negb (Ascii.eqb c "010"%char) else Ascii.eqb p c)
          && re_match pattern' nm'
      end
  end.

(** [tf.get_collection(TF_GRAPHKEYS_VARIABLES, scope=sc)]: the variables
    whose name [re.match(sc, name)] accepts. *)
Definition get_collection (sc : string) : M (list TFVariable) :=
  g <- get_graph ;;
  log (GetCollection sc) ;;
  ret (filter (fun v => re_match sc (var_name v) = true) (variables g)).

(** The tensor engine, on statically known shapes.

    [stack] follows the Python wrapper: with [axis = 0] the list is
    converted as a whole (an empty list gives an empty vector); otherwise
    the wrapper reads [values[0]] to validate the axis, which an empty
    list does not have. *)
Definition stack (values : list Tensor) (axis : nat) (nm : string) : Result Tensor :=
  match values with
  | [] =>
      if bool_decide (axis = 0)
      then Ok {| node := NStack [] axis nm; shape := [0] |}
      else Raise IndexError
  | v0 :: _ =>
      if bool_decide (axis <= length (shape v0)
                      /\ Forall (fun v => shape v = shape v0) values)
      then Ok {| node := NStack (node <$> values) axis nm;
                 shape := take axis (shape v0) ++ length values :: drop axis (shape v0) |}
      else Raise ValueError
  end.

Definition unstack (value : Tensor) (axis : nat) : Result (list Tensor) :=
  match shape value !! axis with
  | Some num =>
      Ok ((fun i => {| node := NUnstack (node value) axis i;
                       shape := take axis (shape value) ++ drop (S axis) (shape value) |})
            <$> seq 0 num)
  | None => Raise ValueError
  end.

Definition transpose (a : Tensor) (perm : list nat) : Result Tensor :=
  if bool_decide (perm ≡ₚ seq 0 (length (shape a)))
  then Ok {| node := NTranspose (node a) perm;
             shape := (fun p => default 0 (shape a !! p)) <$> perm |}
  else Raise ValueError.

(** An engine that differs from [stack] only on the empty list, which it
    accepts on every axis. *)
Definition stack_total (values : list Tensor) (axis : nat) (nm : string) : Result Tensor :=
  match values with
  | [] => Ok {| node := NStack [] axis nm; shape := [0] |}
  | _ => stack values axis nm
  end.

End tf.


(** ** Attribute assignment *)

Definition set_prev_layer (v : option LayerObj) (s : Instance) : Instance :=
  {| prev_layer := v; layer_class := layer_class s; layer_args := layer_args s;
     name := name s; inputs := inputs s; outputs := outputs s;
     _local_weights := _local_weights s;
     all_layers := all_layers s; all_params := all_params s |}.

Definition set_layer_class (v : attr (option LayerClass)) (s : Instance) : Instance :=
  {| prev_layer := prev_layer s; layer_class := v; layer_args := layer_args s;
     name := name s; inputs := inputs s; outputs := outputs s;
     _local_weights := _local_weights s;
     all_layers := all_layers s; all_params := all_params s |}.

Definition set_layer_args (v : attr (option Args)) (s : Instance) : Instance :=
  {| prev_layer := prev_layer s; layer_class := layer_class s; layer_args := v;
     name := name s; inputs := inputs s; outputs := outputs s;
     _local_weights := _local_weights s;
     all_layers := all_layers s; all_params := all_params s |}.

Definition set_name (v : string) (s : Instance) : Instance :=
  {| prev_layer := prev_layer s; layer_class := layer_class s; layer_args := layer_args s;
     name := v; inputs := inputs s; outputs := outputs s;
     _local_weights := _local_weights s;
     all_layers := all_layers s; all_params := all_params s |}.

Definition set_inputs (v : option TensorLike) (s : Instance) : Instance :=
  {| prev_layer := prev_layer s; layer_class := layer_class s; layer_args := layer_args s;
     name := name s; inputs := v; outputs := outputs s;
     _local_weights := _local_weights s;
     all_layers := all_layers s; all_params := all_params s |}.

Definition set_outputs (v : option Tensor) (s : Instance) : Instance :=
  {| prev_layer := prev_layer s; layer_class := layer_class s; layer_args := layer_args s;
     name := name s; inputs := inputs s; outputs := v;
     _local_weights := _local_weights s;
     all_layers := all_layers s; all_params := all_params s |}.

Definition set_local_weights (v : attr (list TFVariable)) (s : Instance) : Instance :=
  {| prev_layer := prev_layer s; layer_class := layer_class s; layer_args := layer_args s;
     name := name s; inputs := inputs s; outputs := outputs s;
     _local_weights := v;
     all_layers := all_layers s; all_params := all_params s |}.

Definition set_all_layers (v : list Tensor) (s : Instance) : Instance :=
  {| prev_layer := prev_layer s; layer_class := layer_class s; layer_args := layer_args s;
     name := name s; inputs := inputs s; outputs := outputs s;
     _local_weights := _local_weights s;
     all_layers := v; all_params := all_params s |}.

Definition set_all_params (v : list TFVariable) (s : Instance) : Instance :=
  {| prev_layer := prev_layer s; layer_class := layer_class s; layer_args := layer_args s;
     name := name s; inputs := inputs s; outputs := outputs s;
     _local_weights := _local_weights s;
     all_layers := all_layers s; all_params := v |}.

(** [self.<field> = v]. *)
Definition setattr (upd : Instance -> Instance) : M unit :=
  s <- get_self ;; put_self (upd s).

(** ** The base layer and the input adapter *)

Module Layer.

(** Modelled from the spec: the base layer's constructor, absent from the
    sources at hand.  The base layer abstraction provides the [inputs] and
    [outputs] fields and keeps the configuration mapping it is given. *)
Definition __init__ (args : option Args) : M unit :=
  setattr (set_layer_args (Bound args)) ;;
  setattr (set_inputs None) ;;
  setattr (set_outputs None).

(** Modelled from the spec: the base layer's call, absent from the sources
    at hand.  It takes the previous layer's outputs as this layer's inputs
    and continues the previous layer's accumulating network description. *)
Definition __call__ (prev : LayerObj) : M unit :=
  setattr (set_inputs (Some (l_outputs prev))) ;;
  setattr (set_all_layers (l_all_layers prev)) ;;
  setattr (set_all_params (l_all_params prev)).

(** Modelled from the spec: the hook that registers a derived output with
    the accumulating network description. *)
Definition _add_layers (t : Tensor) : M unit :=
  s <- get_self ;; setattr (set_all_layers (all_layers s ++ [t])).

(** Modelled from the spec: the hook that registers parameters with the
    accumulating network description. *)
Definition _add_params (ws : list TFVariable) : M unit :=
  s <- get_self ;; setattr (set_all_params (all_params s ++ ws)).

End Layer.

(** Modelled from the spec: the input adapter, absent from the sources at
    hand; it wraps a raw tensor slice into the layer interface under the
    given name and creates no variable. *)
Definition InputLayer (t : Tensor) (nm : string) : InputLayerObj :=
  {| il_outputs := t; il_name := nm |}.

(** ** Calling a layer class *)

(** A layer built by the inner layer class. *)
Record Net : Type := { net_outputs : Tensor; net_weights : list TFVariable }.

Fixpoint get_variables (ps : list (string * Shape)) : M (list TFVariable) :=
  match ps with
  | [] => ret []
  | (n, s) :: ps' =>
      v <- tf.get_variable n s ;;
      vs <- get_variables ps' ;;
      ret (v :: vs)
  end.

(** [cls(in_layer, **kwargs)]. *)
Definition instantiate (cls : LayerClass) (in_layer : InputLayerObj) (kwargs : Args) : M Net :=
  r <- lift (cls_spec cls kwargs (shape (il_outputs in_layer))) ;;
  ws <- get_variables r.1 ;;
  ret {| net_outputs :=
           {| node := NApply (default "" (cls_name cls)) (var_name <$> ws)
                             (node (il_outputs in_layer));
              shape := r.2 |};
         net_weights := ws |}.

(** Calling what [self.layer_class] holds: [None] is not callable. *)
Definition call_class (c : option LayerClass) (in_layer : InputLayerObj) (kwargs : Args) : M Net :=
  match c with
  | Some cls => instantiate cls in_layer kwargs
  | None => raise TypeError
  end.

(** [d['name'] + str(i)] *)
Definition sub_name (d : option Args) (i : nat) : M string :=
  match d with
  | None => raise TypeError
  | Some d =>
      match dict_get d "name" with
      | None => raise KeyError
      | Some (PyStr s) => ret (s +:+ str i)
      | Some (PyInt _) => raise TypeError
      end
  end.

(** [**d] *)
Definition kwargs_of (d : option Args) : M Args :=
  match d with
  | None => raise TypeError
  | Some d => ret d
  end.

(** [try: m except AttributeError: pass], for a block that extends a local
    list: the list is left as it was when the block raises
    [AttributeError]; what the block did to the state stays. *)
Definition try_except_AttributeError {A} (m : M A) (unchanged : A) : M A :=
  fun w =>
    match m w with
    | (w', Raise AttributeError) => (w', Ok unchanged)
    | r => r
    end.

(** ** TimeDistributedLayer *)

Module TimeDistributedLayer.

Section Methods.

(** The tensor engine: [tf.stack(values, axis, name)],
    [tf.unstack(value, axis)] and [tf.transpose(a, perm)]. *)
Variable tf_stack : list Tensor -> nat -> string -> Result Tensor.
Variable tf_unstack : Tensor -> nat -> Result (list Tensor).
Variable tf_transpose : Tensor -> list nat -> Result Tensor.

(** The base layer's [_str], which formats the description from the
    fragments it is handed. *)
Variable _str : list string -> M string.

(** Lines 60-72.  The decorator that renames the legacy keywords is left
    out. *)
Definition __init__ (prev : option LayerObj) (cls : option LayerClass)
    (args : option Args) (nm : string) : M unit :=
  setattr (set_prev_layer prev) ;;
  setattr (set_layer_class (Bound cls)) ;;
  setattr (set_name nm) ;;
  Layer.__init__ args.

(** [self.layer_class.__name__] *)
Definition class_name : M string :=
  c <- getattr layer_class ;;
  match c with
  | Some cls =>
      match cls_name cls with
      | Some n => ret n
      | None => raise AttributeError
      end
  | None => raise AttributeError
  end.

(** ["%s" % self.layer_args] *)
Definition args_str : M string :=
  d <- getattr layer_args ;;
  match d with
  | Some d => ret (repr_dict d)
  | None => ret "None"
  end.

(** Lines 74-87. *)
Definition __str__ : M string :=
  let additional_str := [] in
  additional_str <-
    try_except_AttributeError
      (n <- class_name ;; ret (additional_str ++ ["layer_class: " +:+ n]))
      additional_str ;;
  additional_str <-
    try_except_AttributeError
      (a <- args_str ;; ret (additional_str ++ ["layer_args: " +:+ a]))
      additional_str ;;
  _str additional_str.

(** Lines 94-95, and the value of [self.inputs] afterwards. *)
Definition normalize_inputs : M Tensor :=
  s <- get_self ;;
  match inputs s with
  | Some (One t) => ret t
  | Some (Many ts) =>
      stacked <- lift (tf_stack ts 0 "stack") ;;
      t <- lift (tf_transpose stacked [1; 0; 2]) ;;
      setattr (set_inputs (Some (One t))) ;;
      ret t
  | None => raise TypeError
  end.

(** Lines 107-115: the body of the loop over the timesteps, with the list
    [x] it updates in place. *)
Definition timestep_body (is_name_reuse : Reuse) (i : nat) (x : list Tensor)
    : M (list Tensor) :=
  let reuse := if bool_decide (i = 0) then is_name_reuse else ReuseTrue in
  s <- get_self ;;
  tf.variable_scope (name s) reuse (fun vs =>
    xi <- getitem x i ;;
    d <- getattr layer_args ;;
    nm <- sub_name d i ;;
    let in_layer := InputLayer xi nm in
    c <- getattr layer_class ;;
    d <- getattr layer_args ;;
    kwargs <- kwargs_of d ;;
    net <- call_class c in_layer kwargs ;;
    let x := <[i := net_outputs net]> x in
    ws <- tf.get_collection (vs_name vs) ;;
    setattr (set_local_weights (Bound ws)) ;;
    ret x).

(** Lines 90-120.  [is_train] is not used by the body; the decorator makes
    the call return [self], which is the instance left in the state. *)
Definition __call__ (prev : LayerObj) : M unit :=
  Layer.__call__ prev ;;
  t <- normalize_inputs ;;
  let input_shape := shape t in
  timestep <- getitem input_shape 1 ;;
  x <- lift (tf_unstack t 1) ;;
  vs0 <- tf.get_variable_scope ;;
  let is_name_reuse := vs_reuse vs0 in
  x <- for_range 0 timestep (timestep_body is_name_reuse) x ;;
  s <- get_self ;;
  out <- lift (tf_stack x 1 (name s)) ;;
  setattr (set_outputs (Some out)) ;;
  Layer._add_layers out ;;
  ws <- getattr _local_weights ;;
  Layer._add_params ws.

End Methods.

End TimeDistributedLayer.

(** * Notions the statements are written with *)

(** The variables a parameter list resolves to in a store, read in the
    scope named [sc]. *)
Fixpoint lookup_params (vars : list TFVariable) (sc : string)
    (ps : list (string * Shape)) : list TFVariable :=
  match ps with
  | [] => []
  | p :: ps' =>
      match tf.find_variable vars (tf.join sc p.1) with
      | Some v => v :: lookup_params vars sc ps'
      | None => lookup_params vars sc ps'
      end
  end.

(** Every requested parameter is in the store, with the requested shape. *)
Definition provided (vars : list TFVariable) (sc : string)
    (ps : list (string * Shape)) : Prop :=
  Forall (fun p => exists v,
            tf.find_variable vars (tf.join sc p.1) = Some v /\ var_shape v = p.2) ps.

Definition enter (outer : VariableScope) (nm : string) (r : Reuse) : VariableScope :=
  {| vs_name := tf.join (vs_name outer) nm; vs_reuse := tf.inherit r (vs_reuse outer) |}.

(** The flag line 107 passes to the scope at iteration [i]. *)
Definition reuse_at (is_name_reuse : Reuse) (i : nat) : Reuse :=
  if bool_decide (i = 0) then is_name_reuse else ReuseTrue.

(** The output the inner class builds from slice [xi] with weights [ws]. *)
Definition applied (cls : LayerClass) (ws : list TFVariable) (osh : Shape) (xi : Tensor) : Tensor :=
  {| node := NApply (default "" (cls_name cls)) (var_name <$> ws) (node xi);
     shape := osh |}.

Definition collection (sc : string) (vars : list TFVariable) : list TFVariable :=
  filter (fun v => tf.re_match sc (var_name v) = true) vars.

(** The world once the first iteration, which left the store [V1] and the
    trace [T1], and [m] further ones are done. *)
Definition reused (s : Instance) (outer : VariableScope) (V1 : list TFVariable)
    (T1 : list Event) (m : nat) : World :=
  {| graph :=
       {| variables := V1; current_scope := outer;
          trace := T1 ++ concat (replicate m
                     [EnterScope {| vs_name := tf.join (vs_name outer) (name s);
                                    vs_reuse := ReuseTrue |};
                      GetCollection (tf.join (vs_name outer) (name s))]) |};
     self := set_local_weights
               (Bound (collection (tf.join (vs_name outer) (name s)) V1)) s |}.

(** The [i]-th tensor [tf.unstack(t, axis=1)] returns. *)
Definition slice (t : Tensor) (i : nat) : Tensor :=
  {| node := NUnstack (node t) 1 i;
     shape := take 1 (shape t) ++ drop 2 (shape t) |}.

(** The instance as the base call leaves it. *)
Definition based (prev : LayerObj) (s : Instance) : Instance :=
  set_all_params (l_all_params prev)
    (set_all_layers (l_all_layers prev)
       (set_inputs (Some (l_outputs prev)) s)).

(** The instance as lines 117-120 leave it. *)
Definition registered (out : Tensor) (ws : list TFVariable) (s : Instance) : Instance :=
  set_all_params (all_params s ++ ws)
    (set_all_layers (all_layers s ++ [out])
       (set_outputs (Some out) s)).

(** What the spec compares the layer with: the inner class invoked once,
    directly, on one slice.  The invocation is placed in a scope with the
    layer's name and the ambient reuse flag, so that variable names agree;
    the name given to the input adapter is immaterial. *)
Definition single_timestep (cls : LayerClass) (kwargs : Args) (scope_nm : string)
    (sl : Tensor) : M Net :=
  vs0 <- tf.get_variable_scope ;;
  tf.variable_scope scope_nm (vs_reuse vs0)
    (fun _ => instantiate cls (InputLayer sl scope_nm) kwargs).

(** The scopes a trace enters, and the collection reads it makes. *)
Definition scopes_entered (tr : list Event) : list VariableScope :=
  flat_map (fun e => match e with EnterScope vs => [vs] | _ => [] end) tr.


Definition variables_created (tr : list Event) : list TFVariable :=
  flat_map (fun e => match e with CreateVariable v => [v] | _ => [] end) tr.

(** Lines 92-99: the number of timesteps the call reads off its input. *)
Definition timesteps_read (tf_stack : list Tensor -> nat -> string -> Result Tensor)
    (tf_transpose : Tensor -> list nat -> Result Tensor) (prev : LayerObj) : M nat :=
  Layer.__call__ prev ;;
  t <- TimeDistributedLayer.normalize_inputs tf_stack tf_transpose ;;
  getitem (shape t) 1.

(** * The layer of the docstring, and other concrete inputs *)

(** A dense layer: [W] of shape (dim, n_units) and [b] of shape
    (n_units,), in a scope named by its [name] argument. *)
Definition DenseLayer : LayerClass :=
  {| cls_name := Some "DenseLayer";
     cls_spec := fun kwargs sh =>
       match dict_get kwargs "n_units", dict_get kwargs "name", sh with
       | Some (PyInt n), Some (PyStr nm), [batch; dim] =>
           Ok ([(nm +:+ "/W", [dim; Z.to_nat n]); (nm +:+ "/b", [Z.to_nat n])],
               [batch; Z.to_nat n])
       | _, _, _ => Raise ValueError
       end |}.

Definition empty_graph : Graph :=
  {| variables := [];
     current_scope := {| vs_name := ""; vs_reuse := NoReuse |};
     trace := [] |}.

(** An object before any constructor has run. *)
Definition blank : Instance :=
  {| prev_layer := None; layer_class := Unset; layer_args := Unset;
     name := ""; inputs := None; outputs := None; _local_weights := Unset;
     all_layers := []; all_params := [] |}.

Definition placeholder (nm : string) (sh : Shape) : Tensor :=
  {| node := NPlaceholder nm; shape := sh |}.

Definition input_layer (nm : string) (sh : Shape) : LayerObj :=
  {| l_outputs := One (placeholder nm sh); l_all_layers := []; l_all_params := [] |}.

Definition dense_args : Args := [("n_units", PyInt 50); ("name", PyStr "dense")].

Definition time_dense (T : nat) : M unit :=
  TimeDistributedLayer.__init__ None (Some DenseLayer) (Some dense_args) "time_dense" ;;
  TimeDistributedLayer.__call__ tf.stack tf.unstack tf.transpose
    (input_layer "encode_seqs" [32; T; 100]).

Definition world0 : World := {| graph := empty_graph; self := blank |}.

(** The docstring's layer, constructed as in the example. *)
Definition dense_instance : Instance :=
  self (TimeDistributedLayer.__init__ None (Some DenseLayer) (Some dense_args)
          "time_dense" world0).1.

Definition encode_seqs (T : nat) : Tensor := placeholder "encode_seqs" [32; T; 100].

Definition dense_start : World := {| graph := empty_graph; self := dense_instance |}.

Definition dense_W : TFVariable :=
  {| var_name := "time_dense/dense/W"; var_shape := [100; 50] |}.
Definition dense_b : TFVariable :=
  {| var_name := "time_dense/dense/b"; var_shape := [50] |}.

(** One direct instantiation of the dense layer on the first slice. *)
Definition dense_once (T : nat) : World * Result Net :=
  single_timestep DenseLayer dense_args "time_dense" (slice (encode_seqs T) 0) dense_start.

Definition dense_net (T : nat) : Net :=
  {| net_outputs := applied DenseLayer [dense_W; dense_b] [32; 50] (slice (encode_seqs T) 0);
     net_weights := [dense_W; dense_b] |}.

(** A graph in which the docstring's variables exist already and the
    enclosing scope reuses, as when a network is built a second time to
    share the weights of the first. *)
Definition reusing_graph : Graph :=
  {| variables := [dense_W; dense_b];
     current_scope := {| vs_name := ""; vs_reuse := ReuseTrue |};
     trace := [] |}.

Definition time_dense_scope (r : Reuse) : VariableScope :=
  {| vs_name := "time_dense"; vs_reuse := r |}.

Definition three_steps : list Tensor :=
  [placeholder "x0" [32; 100]; placeholder "x1" [32; 100]; placeholder "x2" [32; 100]].

(** A formatter for the witnesses: the fragments joined by commas. *)
Definition describe (fragments : list string) : M string :=
  s <- get_self ;;
  ret (name s +:+ ": " +:+ String.concat ", " fragments).

Definition nameless_args : Args := [("n_units", PyInt 50)].

Definition nameless_instance : Instance :=
  self (TimeDistributedLayer.__init__ None (Some DenseLayer) (Some nameless_args)
          "time_dense" world0).1.

(** The layer of the docstring after a first call, on two timesteps, with
    a tensor engine whose [stack] accepts the empty list. *)
Definition called_before : World :=
  (TimeDistributedLayer.__call__ tf.stack_total tf.unstack tf.transpose
     (input_layer "encode_seqs" [32; 2; 100]) dense_start).1.

(** ** Notions and inputs of the further properties *)

(** [g'] continues [g]: the current scope is the same, and the store and
    the trace have only been added to. *)
Definition continues (g g' : Graph) : Prop :=
  current_scope g' = current_scope g /\
  (exists created, variables g' = variables g ++ created) /\
  (exists events, trace g' = trace g ++ events).

(** A computation is steady when the graph it leaves continues the graph
    it found, whether it returns or raises. *)
Definition steady {A} (m : M A) : Prop :=
  forall w, continues (graph w) (graph (m w).1).

(** The previous layer with its outputs replaced. *)
Definition with_outputs (o : TensorLike) (prev : LayerObj) : LayerObj :=
  {| l_outputs := o; l_all_layers := l_all_layers prev; l_all_params := l_all_params prev |}.

Definition ragged_steps : list Tensor :=
  [placeholder "x0" [32; 100]; placeholder "x1" [32; 99]].

(** The tensor a sequence of (batch, feature) tensors is normalised to. *)
Definition stacked_sequence (ts : list Tensor) (B D : nat) : Tensor :=
  {| node := NTranspose (NStack (node <$> ts) 0 "stack") [1; 0; 2];
     shape := [B; length ts; D] |}.

Definition dense_once_on (t : Tensor) : World * Result Net :=
  single_timestep DenseLayer dense_args "time_dense" (slice t 0) dense_start.

(** The world an iteration that raises before the inner class is called
    leaves: the scope has been entered, which the trace records, and left
    again. *)
Definition scope_entered (g : Graph) (s : Instance) (r : Reuse) : World :=
  {| graph := {| variables := variables g; current_scope := current_scope g;
                 trace := trace g ++ [EnterScope (enter (current_scope g) (name s) r)] |};
     self := s |}.

(** The docstring's layer with [layer_args] set to [None]. *)
Definition argless_instance : Instance := set_layer_args (Bound None) dense_instance.

Definition default_instance : Instance :=
  self (TimeDistributedLayer.__init__ None None None "time_distributed" world0).1.

Definition numbered_args : Args := [("n_units", PyInt 50); ("name", PyInt 7)].

Definition numbered_instance : Instance :=
  self (TimeDistributedLayer.__init__ None (Some DenseLayer) (Some numbered_args)
          "time_dense" world0).1.

Definition classless_instance : Instance :=
  self (TimeDistributedLayer.__init__ None None (Some dense_args) "time_dense" world0).1.

(** The graph with the reuse flag of its current scope set, as inside
    [with tf.variable_scope(..., reuse=True)]. *)
Definition reusing (g : Graph) : Graph :=
  {| variables := variables g;
     current_scope := {| vs_name := vs_name (current_scope g); vs_reuse := ReuseTrue |};
     trace := trace g |}.

Definition sibling_W : TFVariable :=
  {| var_name := "time_dense_2/dense/W"; var_shape := [7; 3] |}.

Definition graph_with_sibling : Graph :=
  {| variables := [sibling_W];
     current_scope := {| vs_name := ""; vs_reuse := NoReuse |};
     trace := [] |}.

(** A dense layer that is not told its number of units. *)
Definition unitless_args : Args := [("name", PyStr "dense")].

Definition unitless_instance : Instance :=
  self (TimeDistributedLayer.__init__ None (Some DenseLayer) (Some unitless_args)
          "time_dense" world0).1.

(** A layer whose name has a dot, in a graph that holds a variable the dot
    lets through. *)
Definition dotted_instance : Instance := set_name "a.b" dense_instance.

Definition graph_with_lookalike : Graph :=
  {| variables := [{| var_name := "aXb/W"; var_shape := [1] |}];
     current_scope := {| vs_name := ""; vs_reuse := NoReuse |};
     trace := [] |}.

(** * Lemmas *)

Lemma find_variable_app_Some vars extra full v :
  tf.find_variable vars full = Some v ->
  tf.find_variable (vars ++ extra) full = Some v.
Proof.
  induction vars as [|u vars IH]; simpl; [done|].
  case_bool_decide; auto.
Qed.

Lemma find_variable_app_new vars full s :
  tf.find_variable vars full = None ->
  tf.find_variable (vars ++ [{| var_name := full; var_shape := s |}]) full
  = Some {| var_name := full; var_shape := s |}.
Proof.
  induction vars as [|u vars IH]; simpl.
  - rewrite bool_decide_eq_true_2; done.
  - case_bool_decide; [done|auto].
Qed.

Lemma provided_app vars extra sc ps :
  provided vars sc ps -> provided (vars ++ extra) sc ps.
Proof.
  unfold provided. intros H. eapply Forall_impl; [exact H|].
  intros p (v & Hf & Hs).
  exists v. split; [by apply find_variable_app_Some|done].
Qed.

Lemma lookup_params_app vars extra sc ps :
  provided vars sc ps ->
  lookup_params (vars ++ extra) sc ps = lookup_params vars sc ps.
Proof.
  induction 1 as [|p ps (v & Hf & _) _ IH]; simpl; [done|].
  rewrite (find_variable_app_Some _ extra _ _ Hf), Hf, IH. done.
Qed.

(** What a successful [tf.get_variable] leaves behind. *)
Lemma get_variable_Ok n s w w' v :
  tf.get_variable n s w = (w', Ok v) ->
  let sc := vs_name (current_scope (graph w)) in
  self w' = self w /\
  current_scope (graph w') = current_scope (graph w) /\
  (exists created,
      variables (graph w') = variables (graph w) ++ created /\
      trace (graph w') = trace (graph w) ++ (CreateVariable <$> created)) /\
  tf.find_variable (variables (graph w')) (tf.join sc n) = Some v /\
  var_shape v = s /\
  (vs_reuse (current_scope (graph w)) = ReuseTrue -> w' = w).
Proof.
  destruct w as [g st]. unfold tf.get_variable, bind, get_graph, put_graph, ret, raise.
  simpl.
  destruct (tf.find_variable (variables g) _) as [u|] eqn:Hf;
    destruct (vs_reuse (current_scope g)) eqn:Hr; try discriminate.
  - case_bool_decide; [|discriminate]. intros [= <- <-].
    split_and!; try done. exists []. by rewrite !app_nil_r.
  - case_bool_decide; [|discriminate]. intros [= <- <-].
    split_and!; try done. exists []. by rewrite !app_nil_r.
  - intros [= <- <-]. simpl. split_and!; try done.
    + by eexists [_].
    + by apply find_variable_app_new.
  - intros [= <- <-]. simpl. split_and!; try done.
    + by eexists [_].
    + by apply find_variable_app_new.
Qed.

Lemma get_variable_Raise n s w w' e :
  tf.get_variable n s w = (w', Raise e) -> w' = w.
Proof.
  destruct w as [g st]. unfold tf.get_variable, bind, get_graph, put_graph, ret, raise.
  simpl.
  destruct (tf.find_variable (variables g) _) as [u|];
    destruct (vs_reuse (current_scope g)); try discriminate;
    try case_bool_decide; try discriminate; by intros [= <-].
Qed.

(** What a successful run of the requests of one instantiation leaves
    behind: the instance and the scope are untouched, the store only grows
    (and every growth is traced), every request is now provided, and the
    variables handed back are the ones the final store resolves to. *)
Lemma get_variables_Ok ps : forall w w' ws,
  get_variables ps w = (w', Ok ws) ->
  let sc := vs_name (current_scope (graph w)) in
  self w' = self w /\
  current_scope (graph w') = current_scope (graph w) /\
  (exists created,
      variables (graph w') = variables (graph w) ++ created /\
      trace (graph w') = trace (graph w) ++ (CreateVariable <$> created)) /\
  provided (variables (graph w')) sc ps /\
  ws = lookup_params (variables (graph w')) sc ps /\
  (vs_reuse (current_scope (graph w)) = ReuseTrue -> w' = w).
Proof.
  induction ps as [|[n s] ps IH]; intros w w' ws; simpl.
  - unfold ret. intros [= <- <-]. split_and!; try done.
    + exists []. by rewrite !app_nil_r.
    + constructor.
  - unfold bind at 1.
    destruct (tf.get_variable n s w) as [w1 [v|e]] eqn:Hv; [|discriminate].
    unfold bind at 1.
    destruct (get_variables ps w1) as [w2 [vs|e]] eqn:Hvs; [|discriminate].
    unfold ret. intros [= <- <-].
    apply get_variable_Ok in Hv as (Hs1 & Hc1 & (c1 & Hv1 & Ht1) & Hf1 & Hsh1 & Hr1).
    apply IH in Hvs as (Hs2 & Hc2 & (c2 & Hv2 & Ht2) & Hp2 & Hl2 & Hr2).
    rewrite Hc1 in *.
    split_and!.
    + congruence.
    + congruence.
    + exists (c1 ++ c2). rewrite Hv2, Hv1, Ht2, Ht1, fmap_app, !app_assoc. done.
    + constructor; [|done]. exists v. simpl. split; [|done].
      rewrite Hv2. by apply find_variable_app_Some.
    + simpl. rewrite Hv2 at 1.
      rewrite (find_variable_app_Some _ c2 _ _ Hf1). by f_equal.
    + intros Hr. specialize (Hr1 Hr). specialize (Hr2 Hr). congruence.
Qed.

(** A failed run leaves the instance and the scope untouched as well. *)
Lemma get_variables_Raise ps : forall w w' e,
  get_variables ps w = (w', Raise e) ->
  self w' = self w /\ current_scope (graph w') = current_scope (graph w).
Proof.
  induction ps as [|[n s] ps IH]; intros w w' e; simpl; [discriminate|].
  unfold bind at 1.
  destruct (tf.get_variable n s w) as [w1 [v|e1]] eqn:Hv.
  - unfold bind at 1.
    destruct (get_variables ps w1) as [w2 [vs|e2]] eqn:Hvs; [discriminate|].
    intros [= <- <-].
    apply get_variable_Ok in Hv as (Hs1 & Hc1 & _).
    apply IH in Hvs as [Hs2 Hc2]. split; congruence.
  - intros [= <- <-]. by apply get_variable_Raise in Hv as ->.
Qed.

(** In a reusing scope whose store provides every request, the requests
    are answered from the store and nothing at all changes. *)
Lemma get_variables_reuse ps : forall w,
  vs_reuse (current_scope (graph w)) = ReuseTrue ->
  provided (variables (graph w)) (vs_name (current_scope (graph w))) ps ->
  get_variables ps w
  = (w, Ok (lookup_params (variables (graph w)) (vs_name (current_scope (graph w))) ps)).
Proof.
  intros w Hr. induction 1 as [|[n s] ps (v & Hf & Hs) _ IH]; simpl; [done|].
  simpl in *. unfold bind at 1.
  assert (tf.get_variable n s w = (w, Ok v)) as ->.
  { destruct w as [g st]. unfold tf.get_variable, bind, get_graph, ret. simpl in *.
    rewrite Hf, Hr. rewrite bool_decide_eq_true_2; done. }
  unfold bind at 1. rewrite IH. unfold ret. by rewrite Hf.
Qed.

Section Iteration.

Context (cls : LayerClass) (d : Args) (nm : string).
Context (g : Graph) (s : Instance).
Hypothesis Hcls : layer_class s = Bound (Some cls).
Hypothesis Hargs : layer_args s = Bound (Some d).
Hypothesis Hname : dict_get d "name" = Some (PyStr nm).

Context (r : Reuse) (i : nat) (x : list Tensor) (xi : Tensor).
Context (ps : list (string * Shape)) (osh : Shape).
Hypothesis Hxi : x !! i = Some xi.
Hypothesis Hspec : cls_spec cls d (shape xi) = Ok (ps, osh).

Let vs : VariableScope := enter (current_scope g) (name s) (reuse_at r i).
Let inside : World :=
  {| graph := {| variables := variables g; current_scope := vs;
                 trace := trace g ++ [EnterScope vs] |};
     self := s |}.

Lemma timestep_body_Ok w1 ws :
  get_variables ps inside = (w1, Ok ws) ->
  TimeDistributedLayer.timestep_body r i x {| graph := g; self := s |}
  = ({| graph := {| variables := variables (graph w1);
                    current_scope := current_scope g;
                    trace := trace (graph w1) ++ [GetCollection (vs_name vs)] |};
        self := set_local_weights
                  (Bound (collection (vs_name vs) (variables (graph w1)))) s |},
     Ok (<[i := applied cls ws osh xi]> x)).
Proof.
  intros Hgv.
  pose proof (get_variables_Ok _ _ _ _ Hgv) as (Hs1 & Hc1 & _).
  unfold TimeDistributedLayer.timestep_body, tf.variable_scope.
  unfold bind at 1. unfold get_self at 1. cbn [self].
  unfold bind at 1. unfold tf.get_variable_scope, bind at 1, get_graph at 1, ret at 1.
  cbn [graph].
  unfold bind at 1. unfold tf.log at 1, bind at 1, get_graph at 1, put_graph at 1.
  cbn [graph self variables current_scope trace].
  unfold bind at 1. unfold tf.set_scope at 1, bind at 1, get_graph at 1, put_graph at 1.
  cbn [graph self variables current_scope trace].
  fold (reuse_at r i). fold (enter (current_scope g) (name s) (reuse_at r i)).
  fold vs. fold inside.
  unfold getitem. rewrite Hxi.
  unfold bind at 1, ret at 1.
  unfold bind at 1, getattr at 1, bind at 1, get_self at 1. cbn [self].
  subst inside. cbn [self]. rewrite Hargs. unfold ret at 1.
  unfold bind at 1, sub_name. rewrite Hname. unfold ret at 1.
  unfold bind at 1, getattr at 1, bind at 1, get_self at 1. cbn [self].
  rewrite Hcls. unfold ret at 1.
  unfold bind at 1, getattr at 1, bind at 1, get_self at 1. cbn [self].
  rewrite Hargs. unfold ret at 1.
  unfold bind at 1, kwargs_of, ret at 1.
  unfold bind at 1, call_class, instantiate, bind at 1, lift at 1.
  unfold InputLayer. cbn [il_outputs]. rewrite Hspec. cbn [fst snd].
  unfold bind at 1. rewrite Hgv. unfold ret at 1.
  unfold bind at 1, tf.get_collection, bind at 1, get_graph at 1.
  unfold bind at 1, tf.log at 1, bind at 1, get_graph at 1, put_graph at 1.
  unfold ret at 1.
  unfold bind at 1, setattr at 1, bind at 1, get_self at 1, put_self at 1.
  unfold ret at 1.
  cbn [graph self variables current_scope trace net_outputs].
  unfold tf.set_scope, bind, get_graph, put_graph.
  cbn [graph self variables current_scope trace].
  rewrite Hs1. done.
Qed.

End Iteration.

Lemma insert_processed {A} (f : A -> A) (x0 : list A) (k : nat) (xi : A) :
  x0 !! k = Some xi ->
  <[k := f xi]> ((f <$> take k x0) ++ drop k x0)
  = (f <$> take (S k) x0) ++ drop (S k) x0.
Proof.
  intros Hk.
  assert (k < length x0) as Hlt by (by eapply lookup_lt_Some).
  assert (length (f <$> take k x0) = k) as Hlen.
  { rewrite length_fmap, length_take. lia. }
  rewrite insert_app_r_alt by lia.
  rewrite Hlen, Nat.sub_diag.
  rewrite (drop_S _ _ _ Hk). simpl.
  rewrite (take_S_r _ _ _ Hk), fmap_app, <- app_assoc. done.
Qed.

Lemma lookup_processed {A} (f : A -> A) (x0 : list A) (k : nat) :
  ((f <$> take k x0) ++ drop k x0) !! k = x0 !! k.
Proof.
  destruct (decide (k < length x0)) as [Hlt|Hge].
  - rewrite lookup_app_r; rewrite length_fmap, length_take; [|lia].
    rewrite lookup_drop. f_equal. lia.
  - rewrite (lookup_ge_None_2 x0) by lia.
    apply lookup_ge_None_2.
    rewrite length_app, length_fmap, length_take, length_drop. lia.
Qed.

Section Reusing.

Context (cls : LayerClass) (d : Args) (nm : string) (s : Instance).
Hypothesis Hcls : layer_class s = Bound (Some cls).
Hypothesis Hargs : layer_args s = Bound (Some d).
Hypothesis Hname : dict_get d "name" = Some (PyStr nm).

Context (outer : VariableScope) (V1 : list TFVariable) (T1 : list Event).
Context (ps : list (string * Shape)) (sh osh : Shape).
Hypothesis Hspec : cls_spec cls d sh = Ok (ps, osh).

Let sc : string := tf.join (vs_name outer) (name s).
Hypothesis Hprov : provided V1 sc ps.

Let vsR : VariableScope := {| vs_name := sc; vs_reuse := ReuseTrue |}.
Let ws : list TFVariable := lookup_params V1 sc ps.
Let s1 : Instance := set_local_weights (Bound (collection sc V1)) s.


Lemma timestep_body_reuse r m x xi :
  x !! S m = Some xi -> shape xi = sh ->
  TimeDistributedLayer.timestep_body r (S m) x (reused s outer V1 T1 m)
  = (reused s outer V1 T1 (S m), Ok (<[S m := applied cls ws osh xi]> x)).
Proof.
  intros Hxi Hsh. unfold reused.
  erewrite (timestep_body_Ok cls d nm _ s1); try done; cycle 1.
  { by rewrite Hsh. }
  { apply get_variables_reuse; simpl; [done|]. exact Hprov. }
  cbn [graph variables current_scope trace vs_name enter self name s1 set_local_weights].
  fold sc. fold ws. f_equal. f_equal.
  - f_equal. rewrite replicate_S_end, concat_app. simpl.
    rewrite <- !app_assoc. done.
Qed.

Lemma loop_reuse r (x0 : list Tensor) :
  Forall (fun t => shape t = sh) x0 ->
  forall n m, S m + n <= length x0 ->
  for_range (S m) n (TimeDistributedLayer.timestep_body r)
    ((applied cls ws osh <$> take (S m) x0) ++ drop (S m) x0) (reused s outer V1 T1 m)
  = (reused s outer V1 T1 (m + n),
     Ok ((applied cls ws osh <$> take (S m + n) x0) ++ drop (S m + n) x0)).
Proof.
  intros Hsh. induction n as [|n IH]; intros m Hlen; simpl.
  - rewrite !Nat.add_0_r. done.
  - destruct (x0 !! S m) as [xi|] eqn:Hxi; cycle 1.
    { apply lookup_ge_None_1 in Hxi. lia. }
    unfold bind at 1.
    erewrite timestep_body_reuse; cycle 1.
    { rewrite lookup_processed. exact Hxi. }
    { eapply (Forall_lookup_1 _ _ _ _ Hsh Hxi). }
    rewrite (insert_processed _ _ _ _ Hxi).
    rewrite IH by lia.
    replace (m + S n) with (S m + n) by lia. done.
Qed.

End Reusing.

(** The variable machinery never looks at the instance. *)
Lemma get_variable_self n sh g a b w1 res :
  tf.get_variable n sh {| graph := g; self := a |} = (w1, res) ->
  tf.get_variable n sh {| graph := g; self := b |}
  = ({| graph := graph w1; self := b |}, res).
Proof.
  unfold tf.get_variable, bind, get_graph, put_graph, ret, raise. simpl.
  destruct (tf.find_variable (variables g) _) as [u|];
    destruct (vs_reuse (current_scope g));
    try case_bool_decide; intros [= <- <-]; done.
Qed.

Lemma get_variables_self ps : forall g a b w1 res,
  get_variables ps {| graph := g; self := a |} = (w1, res) ->
  get_variables ps {| graph := g; self := b |}
  = ({| graph := graph w1; self := b |}, res).
Proof.
  induction ps as [|[n sh] ps IH]; intros g a b w1 res; simpl.
  - unfold ret. by intros [= <- <-].
  - unfold bind.
    destruct (tf.get_variable n sh {| graph := g; self := a |}) as [[g2 a2] r2] eqn:Hv.
    rewrite (get_variable_self _ _ _ _ b _ _ Hv). simpl.
    destruct r2 as [v|e]; [|by intros [= <- <-]].
    destruct (get_variables ps {| graph := g2; self := a2 |}) as [[g3 a3] r3] eqn:Hvs.
    assert (a2 = a) as ->.
    { apply get_variable_Ok in Hv as [Hs _]. done. }
    rewrite (IH _ _ b _ _ Hvs). simpl.
    destruct r3; by intros [= <- <-].
Qed.

Lemma run_bind {A B} (m : M A) (k : A -> M B) w w' a :
  m w = (w', Ok a) -> (x <- m ;; k x) w = k a w'.
Proof. unfold bind. by intros ->. Qed.

Lemma run_bind_Raise {A B} (m : M A) (k : A -> M B) w w' e :
  m w = (w', Raise e) -> (x <- m ;; k x) w = (w', Raise e).
Proof. unfold bind. by intros ->. Qed.

Lemma base_call_run prev g s :
  Layer.__call__ prev {| graph := g; self := s |}
  = ({| graph := g; self := based prev s |}, Ok tt).
Proof. reflexivity. Qed.

Lemma based_inputs prev s : inputs (based prev s) = Some (l_outputs prev).
Proof. reflexivity. Qed.

Lemma based_name prev s : name (based prev s) = name s.
Proof. reflexivity. Qed.

Section WholeCall.

Context (cls : LayerClass) (d : Args) (nm : string).
Context (g : Graph) (s : Instance) (prev : LayerObj) (t : Tensor).
Context (B n D : nat) (ps : list (string * Shape)) (osh : Shape).
Hypothesis Hcls : layer_class s = Bound (Some cls).
Hypothesis Hargs : layer_args s = Bound (Some d).
Hypothesis Hname : dict_get d "name" = Some (PyStr nm).
Hypothesis Hprev : l_outputs prev = One t.
Hypothesis Ht : shape t = [B; S n; D].
Hypothesis Hspec : cls_spec cls d [B; D] = Ok (ps, osh).
Hypothesis Hrank : 1 <= length osh.

Let sc : string := tf.join (vs_name (current_scope g)) (name s).
Let vs0 : VariableScope := enter (current_scope g) (name s) (vs_reuse (current_scope g)).
Let vsR : VariableScope := {| vs_name := sc; vs_reuse := ReuseTrue |}.

Lemma call_Ok w1 ws :
  get_variables ps
    {| graph := {| variables := variables g; current_scope := vs0;
                   trace := trace g ++ [EnterScope vs0] |};
       self := s |} = (w1, Ok ws) ->
  let V1 := variables (graph w1) in
  let out := {| node := NStack (node <$> (applied cls ws osh <$> (slice t <$> seq 0 (S n))))
                               1 (name s);
                shape := take 1 osh ++ S n :: drop 1 osh |} in
  TimeDistributedLayer.__call__ tf.stack tf.unstack tf.transpose prev
    {| graph := g; self := s |}
  = ({| graph := {| variables := V1; current_scope := current_scope g;
                    trace := (trace (graph w1) ++ [GetCollection sc])
                             ++ concat (replicate n [EnterScope vsR; GetCollection sc]) |};
        self := registered out (collection sc V1)
                  (set_local_weights (Bound (collection sc V1)) (based prev s)) |},
     Ok tt).
Proof.
  intros Hgv V1 out.
  pose proof (get_variables_self _ _ _ (based prev s) _ _ Hgv) as Hgv'.
  pose proof (get_variables_Ok _ _ _ _ Hgv) as (_ & _ & _ & Hprov & Hws & _).
  cbn [graph current_scope vs_name vs0 enter] in Hprov, Hws. fold sc in Hprov, Hws.
  set (x0 := slice t <$> seq 0 (S n)).
  assert (Forall (fun u => shape u = [B; D]) x0) as Hshapes.
  { apply Forall_fmap, Forall_forall. intros i _. simpl. rewrite Ht. done. }
  assert (length x0 = S n) as Hlen.
  { subst x0. by rewrite length_fmap, length_seq. }
  assert (x0 !! 0 = Some (slice t 0)) as H0 by done.
  assert (shape (slice t 0) = [B; D]) as Hsh0 by (simpl; by rewrite Ht).
  unfold TimeDistributedLayer.__call__.
  erewrite run_bind; [|apply base_call_run].
  erewrite run_bind; cycle 1.
  { unfold TimeDistributedLayer.normalize_inputs, bind, get_self. cbn [self].
    rewrite based_inputs, Hprev. reflexivity. }
  erewrite run_bind; cycle 1.
  { unfold getitem. rewrite Ht. reflexivity. }
  erewrite run_bind; cycle 1.
  { unfold lift, tf.unstack.
    replace (shape t !! 1) with (Some (S n)) by (by rewrite Ht).
    reflexivity. }
  erewrite run_bind; [|reflexivity].
  cbn [graph].
  change (_ <$> seq 0 (S n)) with x0.
  erewrite run_bind; cycle 1.
  { cbn [for_range].
    erewrite run_bind; cycle 1.
    { eapply (timestep_body_Ok cls d nm g (based prev s)); try done.
      rewrite Hsh0. exact Hspec. }
    cbn [graph enter vs_name reuse_at]. rewrite based_name. fold sc. fold V1.
    pose proof (loop_reuse cls d nm (based prev s) Hcls Hargs Hname
                  (current_scope g) V1 (trace (graph w1) ++ [GetCollection sc])
                  ps [B; D] osh Hspec Hprov (vs_reuse (current_scope g)) x0 Hshapes n 0)
      as Hloop.
    rewrite Hlen in Hloop. specialize (Hloop (le_n _)).
    rewrite (take_S_r x0 0 _ H0), take_0 in Hloop.
    rewrite <- (insert_processed _ _ _ _ H0) in Hloop.
    rewrite take_0, drop_0 in Hloop. cbn [fmap list_fmap app] in Hloop.
    unfold reused in Hloop at 1. cbn [replicate concat] in Hloop.
    rewrite app_nil_r, based_name in Hloop. fold sc in Hloop.
    fold V1 in Hws. rewrite <- Hws in Hloop.
    exact Hloop. }
  replace (1 + n) with (length x0) by lia.
  rewrite firstn_all, drop_all, app_nil_r.
  unfold reused. cbn [Nat.add]. rewrite based_name. fold sc. fold vsR.
  erewrite run_bind; [|reflexivity].
  cbn [self name set_local_weights]. rewrite based_name.
  erewrite run_bind; cycle 1.
  { unfold lift. f_equal.
    instantiate (1 := out).
    assert (exists xs, x0 = slice t 0 :: xs /\ length xs = n) as (xs & Ex0 & Hxs).
    { subst x0. cbn [seq fmap list_fmap]. eexists. split; [done|].
      by rewrite length_fmap, length_seq. }
    subst out. fold x0.
    rewrite Ex0. cbn [fmap list_fmap]. unfold tf.stack.
    rewrite bool_decide_eq_true_2; cycle 1.
    { split; [done|]. cbn [shape applied].
      constructor; [done|]. apply Forall_fmap, Forall_forall. done. }
    cbn [shape applied length fmap list_fmap]. rewrite length_fmap, Hxs. done. }
  reflexivity.
Qed.

End WholeCall.

Lemma instantiate_self cls il d g a b w1 res :
  instantiate cls il d {| graph := g; self := a |} = (w1, res) ->
  instantiate cls il d {| graph := g; self := b |}
  = ({| graph := graph w1; self := b |}, res).
Proof.
  unfold instantiate, bind at 1 3, lift.
  destruct (cls_spec cls d (shape (il_outputs il))) as [[ps osh]|e]; cycle 1.
  { by intros [= <- <-]. }
  unfold bind. cbn [fst snd].
  destruct (get_variables ps {| graph := g; self := a |}) as [w2 r2] eqn:Hgv.
  rewrite (get_variables_self _ _ _ b _ _ Hgv).
  destruct r2; unfold ret; by intros [= <- <-].
Qed.

Lemma instantiate_Ok cls il d w w1 net :
  instantiate cls il d w = (w1, Ok net) ->
  exists ps osh ws,
    cls_spec cls d (shape (il_outputs il)) = Ok (ps, osh) /\
    get_variables ps w = (w1, Ok ws) /\
    net = {| net_outputs := applied cls ws osh (il_outputs il); net_weights := ws |}.
Proof.
  unfold instantiate, bind at 1, lift.
  destruct (cls_spec cls d (shape (il_outputs il))) as [[ps osh]|e]; [|discriminate].
  unfold bind. cbn [fst snd].
  destruct (get_variables ps w) as [w2 [ws|e]] eqn:Hgv; [|discriminate].
  unfold ret. intros [= <- <-]. by exists ps, osh, ws.
Qed.

Lemma instantiate_Raise_self cls il d w w1 e :
  instantiate cls il d w = (w1, Raise e) ->
  self w1 = self w /\ current_scope (graph w1) = current_scope (graph w).
Proof.
  unfold instantiate, bind at 1, lift.
  destruct (cls_spec cls d (shape (il_outputs il))) as [[ps osh]|e']; cycle 1.
  { by intros [= <- <-]. }
  unfold bind. cbn [fst snd].
  destruct (get_variables ps w) as [w2 [ws|e']] eqn:Hgv; [discriminate|].
  unfold ret. intros [= <- <-]. by apply get_variables_Raise in Hgv.
Qed.

(** The direct instantiation, spelled out on the scope it runs in. *)
Lemma single_timestep_run cls d nm sl g s :
  let vs0 := enter (current_scope g) nm (vs_reuse (current_scope g)) in
  let inside := {| graph := {| variables := variables g; current_scope := vs0;
                               trace := trace g ++ [EnterScope vs0] |};
                   self := s |} in
  single_timestep cls d nm sl {| graph := g; self := s |}
  = (let r := instantiate cls (InputLayer sl nm) d inside in
     ({| graph := {| variables := variables (graph r.1);
                     current_scope := current_scope g;
                     trace := trace (graph r.1) |};
         self := self r.1 |}, r.2)).
Proof.
  intros vs0 inside. unfold single_timestep, tf.variable_scope.
  unfold bind at 1, tf.get_variable_scope at 1, bind at 1, get_graph at 1, ret at 1.
  unfold bind at 1, tf.get_variable_scope at 1, bind at 1, get_graph at 1, ret at 1.
  unfold bind at 1, tf.log at 1, bind at 1, get_graph at 1, put_graph at 1.
  unfold bind at 1, tf.set_scope at 1, bind at 1, get_graph at 1, put_graph at 1.
  cbn [graph self variables current_scope trace].
  fold (enter (current_scope g) nm (vs_reuse (current_scope g))). fold vs0. fold inside.
  destruct (instantiate cls (InputLayer sl nm) d inside) as [w1 r]. done.
Qed.

Section IterationFails.

Context (cls : LayerClass) (d : Args) (nm : string).
Context (g : Graph) (s : Instance).
Hypothesis Hcls : layer_class s = Bound (Some cls).
Hypothesis Hargs : layer_args s = Bound (Some d).
Hypothesis Hname : dict_get d "name" = Some (PyStr nm).

Context (r : Reuse) (i : nat) (x : list Tensor) (xi : Tensor).
Hypothesis Hxi : x !! i = Some xi.

Let vs : VariableScope := enter (current_scope g) (name s) (reuse_at r i).
Let inside : World :=
  {| graph := {| variables := variables g; current_scope := vs;
                 trace := trace g ++ [EnterScope vs] |};
     self := s |}.

Lemma timestep_body_Raise nm' w1 e :
  instantiate cls (InputLayer xi nm') d inside = (w1, Raise e) ->
  TimeDistributedLayer.timestep_body r i x {| graph := g; self := s |}
  = ({| graph := {| variables := variables (graph w1);
                    current_scope := current_scope g;
                    trace := trace (graph w1) |};
        self := s |},
     Raise e).
Proof.
  intros Hin.
  pose proof (instantiate_Raise_self _ _ _ _ _ _ Hin) as [Hs1 _].
  unfold TimeDistributedLayer.timestep_body, tf.variable_scope.
  unfold bind at 1. unfold get_self at 1. cbn [self].
  unfold bind at 1. unfold tf.get_variable_scope, bind at 1, get_graph at 1, ret at 1.
  cbn [graph].
  unfold bind at 1. unfold tf.log at 1, bind at 1, get_graph at 1, put_graph at 1.
  cbn [graph self variables current_scope trace].
  unfold bind at 1. unfold tf.set_scope at 1, bind at 1, get_graph at 1, put_graph at 1.
  cbn [graph self variables current_scope trace].
  fold (reuse_at r i). fold (enter (current_scope g) (name s) (reuse_at r i)).
  fold vs. fold inside.
  unfold getitem. rewrite Hxi.
  unfold bind at 1, ret at 1.
  unfold bind at 1, getattr at 1, bind at 1, get_self at 1. cbn [self].
  subst inside. cbn [self]. rewrite Hargs. unfold ret at 1.
  unfold bind at 1, sub_name. rewrite Hname. unfold ret at 1.
  unfold bind at 1, getattr at 1, bind at 1, get_self at 1. cbn [self].
  rewrite Hcls. unfold ret at 1.
  unfold bind at 1, getattr at 1, bind at 1, get_self at 1. cbn [self].
  rewrite Hargs. unfold ret at 1.
  unfold bind at 1, kwargs_of, ret at 1.
  unfold bind at 1, call_class.
  change (instantiate cls (InputLayer xi (nm +:+ str i)) d)
    with (instantiate cls (InputLayer xi nm') d).
  rewrite Hin.
  unfold tf.set_scope, bind, get_graph, put_graph.
  cbn [graph self variables current_scope trace].
  cbn [self] in Hs1. rewrite Hs1. done.
Qed.

End IterationFails.

(** Without the ['name'] key the iteration stops at line 110, inside the
    scope it has just entered and before the inner class is called. *)
Lemma timestep_body_KeyError g s d r i x xi :
  layer_args s = Bound (Some d) ->
  dict_get d "name" = None ->
  x !! i = Some xi ->
  TimeDistributedLayer.timestep_body r i x {| graph := g; self := s |}
  = ({| graph := {| variables := variables g; current_scope := current_scope g;
                    trace := trace g
                             ++ [EnterScope (enter (current_scope g) (name s) (reuse_at r i))] |};
        self := s |},
     Raise KeyError).
Proof.
  intros Hargs Hname Hxi.
  unfold TimeDistributedLayer.timestep_body, tf.variable_scope.
  unfold bind at 1. unfold get_self at 1. cbn [self].
  unfold bind at 1. unfold tf.get_variable_scope, bind at 1, get_graph at 1, ret at 1.
  cbn [graph].
  unfold bind at 1. unfold tf.log at 1, bind at 1, get_graph at 1, put_graph at 1.
  cbn [graph self variables current_scope trace].
  unfold bind at 1. unfold tf.set_scope at 1, bind at 1, get_graph at 1, put_graph at 1.
  cbn [graph self variables current_scope trace].
  unfold getitem. rewrite Hxi.
  unfold bind at 1, ret at 1.
  unfold bind at 1, getattr at 1, bind at 1, get_self at 1. cbn [self].
  rewrite Hargs. unfold ret at 1.
  unfold bind at 1, sub_name. rewrite Hname. unfold raise at 1.
  unfold tf.set_scope, bind, get_graph, put_graph.
  cbn [graph self variables current_scope trace]. done.
Qed.

Lemma single_timestep_Ok cls d nm sl g s w1 net :
  single_timestep cls d nm sl {| graph := g; self := s |} = (w1, Ok net) ->
  let vs0 := enter (current_scope g) nm (vs_reuse (current_scope g)) in
  exists ps osh w1' ws,
    cls_spec cls d (shape sl) = Ok (ps, osh) /\
    get_variables ps
      {| graph := {| variables := variables g; current_scope := vs0;
                     trace := trace g ++ [EnterScope vs0] |};
         self := s |} = (w1', Ok ws) /\
    variables (graph w1) = variables (graph w1') /\
    trace (graph w1) = trace (graph w1') /\
    net = {| net_outputs := applied cls ws osh sl; net_weights := ws |}.
Proof.
  rewrite single_timestep_run. cbn zeta.
  destruct (instantiate _ _ _ _) as [w1' [net'|e]] eqn:Hin; cbn [fst snd];
    [|discriminate].
  intros [= <- <-].
  apply instantiate_Ok in Hin as (ps & osh & ws & Hspec & Hgv & ->).
  exists ps, osh, w1', ws. done.
Qed.

Lemma prefix_app (a b : string) : String.prefix a (a +:+ b) = true.
Proof.
  induction a as [|c a IH]; simpl; [by destruct b|].
  destruct (Ascii.ascii_dec c c); [done|congruence].
Qed.

Lemma find_variable_Some vars full v :
  tf.find_variable vars full = Some v -> v ∈ vars /\ var_name v = full.
Proof.
  induction vars as [|u vars IH]; simpl; [done|].
  case_bool_decide.
  - intros [= <-]. split; [constructor|done].
  - intros Hf. destruct (IH Hf). split; [by constructor|done].
Qed.

(** A name that starts with the pattern, character for character, is
    matched by it. *)
Lemma prefix_re_match (a b : string) :
  String.prefix a b = true -> tf.re_match a b = true.
Proof.
  revert b. induction a as [|p a IH]; intros [|c b]; simpl; try done.
  destruct (Ascii.ascii_dec p c) as [<-|]; [|done]. intros Hpre.
  rewrite (IH _ Hpre), andb_true_r.
  destruct (Ascii.eqb p "."%char) eqn:Hdot.
  - apply Ascii.eqb_eq in Hdot as ->. done.
  - apply Ascii.eqb_refl.
Qed.


(** Every variable an instantiation resolves to is a variable of the
    store. *)
Lemma lookup_params_in_store vars sc ps :
  Forall (fun v => v ∈ vars) (lookup_params vars sc ps).
Proof.
  induction ps as [|p ps IH]; simpl; [constructor|].
  destruct (tf.find_variable vars _) as [v|] eqn:Hf; [|done].
  constructor; [|done]. by apply find_variable_Some in Hf as [Hin _].
Qed.


(** When the first iteration's instantiation fails, the call fails with the
    same exception, having produced and registered nothing. *)
Lemma call_Raise_first cls d nm g s prev t B n D nm' w1 e :
  layer_class s = Bound (Some cls) ->
  layer_args s = Bound (Some d) ->
  dict_get d "name" = Some (PyStr nm) ->
  l_outputs prev = One t ->
  shape t = [B; S n; D] ->
  let vs0 := enter (current_scope g) (name s) (vs_reuse (current_scope g)) in
  instantiate cls (InputLayer (slice t 0) nm') d
    {| graph := {| variables := variables g; current_scope := vs0;
                   trace := trace g ++ [EnterScope vs0] |};
       self := s |} = (w1, Raise e) ->
  TimeDistributedLayer.__call__ tf.stack tf.unstack tf.transpose prev
    {| graph := g; self := s |}
  = ({| graph := {| variables := variables (graph w1);
                    current_scope := current_scope g;
                    trace := trace (graph w1) |};
        self := based prev s |},
     Raise e).
Proof.
  intros Hcls Hargs Hname Hprev Ht vs0 Hin.
  apply (instantiate_self _ _ _ _ _ (based prev s)) in Hin.
  unfold TimeDistributedLayer.__call__.
  erewrite run_bind; [|apply base_call_run].
  erewrite run_bind; cycle 1.
  { unfold TimeDistributedLayer.normalize_inputs, bind, get_self. cbn [self].
    rewrite based_inputs, Hprev. reflexivity. }
  erewrite run_bind; cycle 1.
  { unfold getitem. rewrite Ht. reflexivity. }
  erewrite run_bind; cycle 1.
  { unfold lift, tf.unstack.
    replace (shape t !! 1) with (Some (S n)) by (by rewrite Ht).
    reflexivity. }
  erewrite run_bind; [|reflexivity].
  cbn [graph].
  erewrite run_bind_Raise; [reflexivity|].
  cbn [for_range].
  erewrite run_bind_Raise; [reflexivity|].
  assert (((fun i => {| node := NUnstack (node t) 1 i;
                        shape := take 1 (shape t) ++ drop 2 (shape t) |})
             <$> seq 0 (S n)) !! 0 = Some (slice t 0)) as H0 by done.
  rewrite (timestep_body_Raise cls d nm g (based prev s) Hcls Hargs Hname
             _ 0 _ (slice t 0) H0 nm' _ e Hin).
  done.
Qed.

Lemma inherit_same r : tf.inherit r r = r.
Proof. by destruct r. Qed.

(** The events a successful call on [S n] timesteps adds, in order: the
    first iteration opens the scope with the flag of the enclosing scope,
    creates what has to be created and reads the collection; each of the
    [n] further iterations reopens the scope with the reuse flag set and
    reads the collection, creating nothing. *)
Lemma call_trace cls d nm g s prev t B n D w1 net :
  layer_class s = Bound (Some cls) ->
  layer_args s = Bound (Some d) ->
  dict_get d "name" = Some (PyStr nm) ->
  l_outputs prev = One t ->
  shape t = [B; S n; D] ->
  single_timestep cls d (name s) (slice t 0) {| graph := g; self := s |} = (w1, Ok net) ->
  1 <= length (shape (net_outputs net)) ->
  let sc := tf.join (vs_name (current_scope g)) (name s) in
  exists w' out created,
    TimeDistributedLayer.__call__ tf.stack tf.unstack tf.transpose prev
      {| graph := g; self := s |} = (w', Ok tt) /\
    variables (graph w1) = variables g ++ created /\
    variables (graph w') = variables g ++ created /\
    trace (graph w')
    = trace g
      ++ EnterScope {| vs_name := sc; vs_reuse := vs_reuse (current_scope g) |}
         :: (CreateVariable <$> created)
      ++ GetCollection sc
         :: concat (replicate n [EnterScope {| vs_name := sc; vs_reuse := ReuseTrue |};
                                 GetCollection sc]) /\
    self w' = registered out (collection sc (variables g ++ created))
                (set_local_weights (Bound (collection sc (variables g ++ created)))
                   (based prev s)).
Proof.
  intros Hcls Hargs Hname Hprev Ht Hone Hrank sc.
  apply single_timestep_Ok in Hone as (ps & osh & w1' & ws & Hspec & Hgv & HV & _ & ->).
  assert (shape (slice t 0) = [B; D]) as Hsl by (simpl; by rewrite Ht).
  rewrite Hsl in Hspec. cbn [net_outputs net_weights applied shape] in *.
  pose proof (call_Ok cls d nm g s prev t B n D ps osh Hcls Hargs Hname Hprev Ht
                Hspec Hrank w1' ws Hgv) as Hcall.
  pose proof (get_variables_Ok _ _ _ _ Hgv) as (_ & _ & (created & Hv & Htr) & _).
  cbn [graph variables trace] in Hv, Htr.
  cbn zeta in Hcall. eexists _, _, created. split; [exact Hcall|].
  cbn [graph self variables trace]. rewrite HV, Hv, Htr.
  split_and!; try done.
  unfold enter. rewrite inherit_same. fold sc.
  rewrite <- !app_assoc. done.
Qed.

Lemma scopes_entered_app a b :
  scopes_entered (a ++ b) = scopes_entered a ++ scopes_entered b.
Proof. apply flat_map_app. Qed.


Lemma scopes_entered_created vs : scopes_entered (CreateVariable <$> vs) = [].
Proof. induction vs; simpl; done. Qed.


Lemma scopes_entered_reuse n vs sc :
  scopes_entered (concat (replicate n [EnterScope vs; GetCollection sc])) = replicate n vs.
Proof. induction n as [|n IH]; simpl; [done|]. by rewrite IH. Qed.


Lemma class_fragment_run (w : World) :
  exists cf : list string,
    try_except_AttributeError
      (n <- TimeDistributedLayer.class_name ;; ret ([] ++ ["layer_class: " +:+ n])) [] w
    = (w, Ok cf) /\
    (layer_class (self w) = Unset -> cf = []) /\
    Forall (fun f => String.prefix "layer_class: " f = true) cf.
Proof.
  destruct w as [g s].
  unfold TimeDistributedLayer.class_name, try_except_AttributeError, getattr, bind,
    get_self, ret, raise.
  simpl.
  destruct (layer_class s) as [|[cls|]] eqn:Hc; simpl.
  - by exists [].
  - destruct (cls_name cls) as [n|]; simpl.
    + eexists [_]. split_and!; try done; repeat constructor; apply prefix_app.
    + by exists [].
  - by exists [].
Qed.

Lemma args_fragment_run (cf : list string) (w : World) :
  exists af : list string,
    try_except_AttributeError
      (a <- TimeDistributedLayer.args_str ;; ret (cf ++ ["layer_args: " +:+ a])) cf w
    = (w, Ok (cf ++ af)) /\
    (layer_args (self w) = Unset -> af = []) /\
    Forall (fun f => String.prefix "layer_args: " f = true) af.
Proof.
  destruct w as [g s].
  unfold TimeDistributedLayer.args_str, try_except_AttributeError, getattr, bind,
    get_self, ret, raise.
  simpl.
  destruct (layer_args s) as [|[d|]] eqn:Ha; simpl.
  - exists []. by rewrite app_nil_r.
  - eexists [_]. split_and!; try done; repeat constructor; apply prefix_app.
  - eexists [_]. split_and!; try done; repeat constructor.
Qed.

(** What [__str__] comes to: [_str] applied to the fragments that could be
    built, in the state [__str__] was called in. *)
Lemma str_delegates (_str : list string -> M string) (w : World) :
  exists cf af : list string,
    TimeDistributedLayer.__str__ _str w = _str (cf ++ af) w /\
    (layer_class (self w) = Unset -> cf = []) /\
    (layer_args (self w) = Unset -> af = []) /\
    Forall (fun f => String.prefix "layer_class: " f = true) cf /\
    Forall (fun f => String.prefix "layer_args: " f = true) af.
Proof.
  destruct (class_fragment_run w) as (cf & Hcf & Hc1 & Hc2).
  destruct (args_fragment_run cf w) as (af & Haf & Ha1 & Ha2).
  exists cf, af. split_and!; try done.
  unfold TimeDistributedLayer.__str__.
  erewrite run_bind; [|exact Hcf].
  erewrite run_bind; [|exact Haf].
  done.
Qed.

(** Lines 94-95 change no attribute but [inputs], and nothing in the
    graph. *)
Lemma normalize_inputs_frame tf_stack tf_transpose g s :
  exists s' r,
    TimeDistributedLayer.normalize_inputs tf_stack tf_transpose {| graph := g; self := s |}
    = ({| graph := g; self := s' |}, r) /\
    s' = set_inputs (inputs s') s.
Proof.
  unfold TimeDistributedLayer.normalize_inputs, bind, get_self, lift, setattr, put_self,
    ret, raise.
  cbn [self graph]. destruct s as [p c a nm i o lw al ap]. cbn [inputs].
  destruct i as [[t|ts]|].
  - by eexists _, _.
  - destruct (tf_stack ts 0 "stack") as [st|e]; [|by eexists _, _].
    destruct (tf_transpose st [1; 0; 2]) as [t|e]; by eexists _, _.
  - by eexists _, _.
Qed.

(** Without the ['name'] key an iteration raises before the inner class
    is called, whether or not there is a slice to hand it. *)
Lemma timestep_body_missing_name g s d r i x :
  layer_args s = Bound (Some d) ->
  dict_get d "name" = None ->
  exists e,
    TimeDistributedLayer.timestep_body r i x {| graph := g; self := s |}
    = ({| graph := {| variables := variables g; current_scope := current_scope g;
                      trace := trace g
                               ++ [EnterScope (enter (current_scope g) (name s) (reuse_at r i))] |};
          self := s |},
       Raise e).
Proof.
  intros Hargs Hname. destruct (x !! i) as [xi|] eqn:Hxi.
  - exists KeyError. by eapply timestep_body_KeyError.
  - exists IndexError.
    unfold TimeDistributedLayer.timestep_body, tf.variable_scope.
    unfold bind at 1. unfold get_self at 1. cbn [self].
    unfold bind at 1. unfold tf.get_variable_scope, bind at 1, get_graph at 1, ret at 1.
    cbn [graph].
    unfold bind at 1. unfold tf.log at 1, bind at 1, get_graph at 1, put_graph at 1.
    cbn [graph self variables current_scope trace].
    unfold bind at 1. unfold tf.set_scope at 1, bind at 1, get_graph at 1, put_graph at 1.
    cbn [graph self variables current_scope trace].
    unfold getitem. rewrite Hxi.
    unfold bind at 1, raise at 1.
    unfold tf.set_scope, bind, get_graph, put_graph.
    cbn [graph self variables current_scope trace]. done.
Qed.

(** * The claims *)

(** C1.  Weight sharing.  Take a layer configured with an inner class and
    a configuration that names it, and a 3-D input with [S n] timesteps.
    If the inner class can be instantiated once on a (batch, feature)
    slice, leaving the store [variables (graph w1)], then the call
    succeeds and leaves the very same store, whatever the number of
    timesteps: the parameters created are exactly those of the single
    instantiation, in number, names and shapes.  The weights the single
    instantiation returned are variables of that store, and every
    timestep's output is built from this one weight list. *)
Theorem C1_parameters_independent_of_timesteps
    (cls : LayerClass) (d : Args) (nm : string) (g : Graph) (s : Instance)
    (prev : LayerObj) (t : Tensor) (B n D : nat) (w1 : World) (net : Net) :
  layer_class s = Bound (Some cls) ->
  layer_args s = Bound (Some d) ->
  dict_get d "name" = Some (PyStr nm) ->
  l_outputs prev = One t ->
  shape t = [B; S n; D] ->
  single_timestep cls d (name s) (slice t 0) {| graph := g; self := s |} = (w1, Ok net) ->
  1 <= length (shape (net_outputs net)) ->
  exists w' out,
    TimeDistributedLayer.__call__ tf.stack tf.unstack tf.transpose prev
      {| graph := g; self := s |} = (w', Ok tt) /\
    variables (graph w') = variables (graph w1) /\
    Forall (fun v => v ∈ variables (graph w')) (net_weights net) /\
    outputs (self w') = Some out /\
    node out
    = NStack (node <$> (applied cls (net_weights net) (shape (net_outputs net))
                          <$> (slice t <$> seq 0 (S n))))
             1 (name s).
Proof.
  intros Hcls Hargs Hname Hprev Ht Hone Hrank.
  apply single_timestep_Ok in Hone as (ps & osh & w1' & ws & Hspec & Hgv & HV & _ & ->).
  assert (shape (slice t 0) = [B; D]) as Hsl by (simpl; by rewrite Ht).
  rewrite Hsl in Hspec. cbn [net_outputs net_weights applied shape] in *.
  pose proof (call_Ok cls d nm g s prev t B n D ps osh Hcls Hargs Hname Hprev Ht
                Hspec Hrank w1' ws Hgv) as Hcall.
  pose proof (get_variables_Ok _ _ _ _ Hgv) as (_ & _ & _ & _ & Hws & _).
  cbn zeta in Hcall. eexists _, _. split; [exact Hcall|].
  cbn [graph self variables]. rewrite HV. split_and!; try done.
  rewrite Hws. apply lookup_params_in_store.
Qed.

Lemma C1_witness :
  exists w' out,
    TimeDistributedLayer.__call__ tf.stack tf.unstack tf.transpose
      (input_layer "encode_seqs" [32; 20; 100]) dense_start = (w', Ok tt) /\
    variables (graph w') = variables (graph (dense_once 20).1) /\
    Forall (fun v => v ∈ variables (graph w')) (net_weights (dense_net 20)) /\
    outputs (self w') = Some out /\
    node out
    = NStack (node <$> (applied DenseLayer [dense_W; dense_b] [32; 50]
                          <$> (slice (encode_seqs 20) <$> seq 0 20)))
             1 "time_dense".
Proof.
  apply (C1_parameters_independent_of_timesteps
           DenseLayer dense_args "dense" empty_graph dense_instance
           (input_layer "encode_seqs" [32; 20; 100]) (encode_seqs 20) 32 19 100
           (dense_once 20).1 (dense_net 20)).
  - reflexivity.
  - reflexivity.
  - reflexivity.
  - reflexivity.
  - reflexivity.
  - vm_compute. reflexivity.
  - simpl. lia.
Defined.

(** C2.  Output shape.  For a 3-D input of shape (B, T, D) with T = [S n],
    and an inner class that yields shape (B, D') on a (B, D) slice and can
    be instantiated on one, the call succeeds and its output tensor, which
    it also registers, has shape (B, T, D'): as many timesteps out as
    in. *)
Theorem C2_output_shape
    (cls : LayerClass) (d : Args) (nm : string) (g : Graph) (s : Instance)
    (prev : LayerObj) (t : Tensor) (B n D D' : nat)
    (ps : list (string * Shape)) (w1 : World) (net : Net) :
  layer_class s = Bound (Some cls) ->
  layer_args s = Bound (Some d) ->
  dict_get d "name" = Some (PyStr nm) ->
  l_outputs prev = One t ->
  shape t = [B; S n; D] ->
  cls_spec cls d [B; D] = Ok (ps, [B; D']) ->
  single_timestep cls d (name s) (slice t 0) {| graph := g; self := s |} = (w1, Ok net) ->
  exists w' out,
    TimeDistributedLayer.__call__ tf.stack tf.unstack tf.transpose prev
      {| graph := g; self := s |} = (w', Ok tt) /\
    outputs (self w') = Some out /\
    all_layers (self w') = l_all_layers prev ++ [out] /\
    shape out = [B; S n; D'].
Proof.
  intros Hcls Hargs Hname Hprev Ht Hspec Hone.
  apply single_timestep_Ok in Hone as (ps' & osh & w1' & ws & Hspec' & Hgv & _).
  assert (shape (slice t 0) = [B; D]) as Hsl by (simpl; by rewrite Ht).
  rewrite Hsl, Hspec in Hspec'. injection Hspec' as <- <-.
  assert (1 <= length [B; D']) as Hrank by (simpl; lia).
  pose proof (call_Ok cls d nm g s prev t B n D ps [B; D'] Hcls Hargs Hname Hprev Ht
                Hspec Hrank w1' ws Hgv) as Hcall.
  cbn zeta in Hcall. eexists _, _. split; [exact Hcall|]. done.
Qed.

Lemma C2_witness :
  exists w' out,
    TimeDistributedLayer.__call__ tf.stack tf.unstack tf.transpose
      (input_layer "encode_seqs" [32; 20; 100]) dense_start = (w', Ok tt) /\
    outputs (self w') = Some out /\
    all_layers (self w') = [] ++ [out] /\
    shape out = [32; 20; 50].
Proof.
  apply (C2_output_shape
           DenseLayer dense_args "dense" empty_graph dense_instance
           (input_layer "encode_seqs" [32; 20; 100]) (encode_seqs 20) 32 19 100 50
           [("dense/W", [100; 50]); ("dense/b", [50])]
           (dense_once 20).1 (dense_net 20)).
  - reflexivity.
  - reflexivity.
  - reflexivity.
  - reflexivity.
  - reflexivity.
  - reflexivity.
  - vm_compute. reflexivity.
Defined.

(** C3, as stated, fails: under an enclosing scope that reuses, the first
    iteration opens the layer's scope with the reuse flag set as well and
    creates nothing; the call succeeds on the variables already there. *)
Lemma C3_counterexample :
  exists w',
    TimeDistributedLayer.__call__ tf.stack tf.unstack tf.transpose
      (input_layer "encode_seqs" [32; 2; 100])
      {| graph := reusing_graph; self := dense_instance |} = (w', Ok tt) /\
    scopes_entered (trace (graph w'))
    = [time_dense_scope ReuseTrue; time_dense_scope ReuseTrue] /\
    variables_created (trace (graph w')) = [] /\
    variables (graph w') = variables reusing_graph.
Proof. eexists. split; [vm_compute; reflexivity|]. done. Qed.

(** C3, amended.  The first iteration opens the layer's scope with the
    reuse flag of the enclosing scope (so it creates parameters only when
    the enclosing scope does not reuse); every later iteration reopens the
    scope of the same name with the reuse flag set.  Every parameter the
    call creates is created before the second scope is opened: the store
    after the call is the store after the first iteration. *)
Theorem C3_first_scope_ambient_then_reuse
    (cls : LayerClass) (d : Args) (nm : string) (g : Graph) (s : Instance)
    (prev : LayerObj) (t : Tensor) (B n D : nat) (w1 : World) (net : Net) :
  layer_class s = Bound (Some cls) ->
  layer_args s = Bound (Some d) ->
  dict_get d "name" = Some (PyStr nm) ->
  l_outputs prev = One t ->
  shape t = [B; S n; D] ->
  single_timestep cls d (name s) (slice t 0) {| graph := g; self := s |} = (w1, Ok net) ->
  1 <= length (shape (net_outputs net)) ->
  let sc := tf.join (vs_name (current_scope g)) (name s) in
  exists w' wfirst x1 after,
    TimeDistributedLayer.__call__ tf.stack tf.unstack tf.transpose prev
      {| graph := g; self := s |} = (w', Ok tt) /\
    TimeDistributedLayer.timestep_body (vs_reuse (current_scope g)) 0
      (slice t <$> seq 0 (S n)) {| graph := g; self := based prev s |}
    = (wfirst, Ok x1) /\
    scopes_entered (trace (graph w'))
    = scopes_entered (trace g)
      ++ {| vs_name := sc; vs_reuse := vs_reuse (current_scope g) |}
         :: replicate n {| vs_name := sc; vs_reuse := ReuseTrue |} /\
    trace (graph w') = trace (graph wfirst) ++ after /\
    variables_created after = [] /\
    variables (graph w') = variables (graph wfirst).
Proof.
  intros Hcls Hargs Hname Hprev Ht Hone Hrank sc.
  destruct (call_trace cls d nm g s prev t B n D w1 net Hcls Hargs Hname Hprev Ht
              Hone Hrank) as (w' & out & created & Hcall & HV1 & HV & Htr & _).
  apply single_timestep_Ok in Hone as (ps & osh & w1' & ws & Hspec & Hgv & HV' & _ & ->).
  assert (shape (slice t 0) = [B; D]) as Hsl by (simpl; by rewrite Ht).
  pose proof (get_variables_self _ _ _ (based prev s) _ _ Hgv) as Hgv'.
  pose proof (get_variables_Ok _ _ _ _ Hgv) as (_ & _ & (created' & Hv & Htr1) & _).
  cbn [graph variables trace] in Hv, Htr1.
  assert (created' = created) as ->.
  { rewrite HV', Hv in HV1. by apply app_inv_head in HV1. }
  assert ((slice t <$> seq 0 (S n)) !! 0 = Some (slice t 0)) as H0 by done.
  pose proof (timestep_body_Ok cls d nm g (based prev s) Hcls Hargs Hname
                (vs_reuse (current_scope g)) 0 _ (slice t 0) ps osh H0 Hspec _ _ Hgv')
    as Hfirst.
  eexists w', _, _,
    (concat (replicate n [EnterScope {| vs_name := sc; vs_reuse := ReuseTrue |};
                          GetCollection sc])).
  split; [exact Hcall|]. split; [exact Hfirst|].
  cbn [graph variables trace]. rewrite Htr, Htr1, HV, Hv.
  split_and!; try done.
  - rewrite !scopes_entered_app. cbn [scopes_entered flat_map app].
    rewrite scopes_entered_app, scopes_entered_created. cbn [scopes_entered flat_map app].
    fold (scopes_entered (concat (replicate n [EnterScope {| vs_name := sc; vs_reuse := ReuseTrue |};
                          GetCollection sc]))).
    rewrite scopes_entered_reuse. done.
  - unfold enter, reuse_at. cbn [bool_decide decide_rel]. rewrite inherit_same.
    cbn [vs_name]. rewrite based_name. fold sc. rewrite <- !app_assoc. done.
  - clear. induction n as [|n IH]; simpl; done.
Qed.

Lemma C3_witness :
  exists w' wfirst x1 after,
    TimeDistributedLayer.__call__ tf.stack tf.unstack tf.transpose
      (input_layer "encode_seqs" [32; 3; 100]) dense_start = (w', Ok tt) /\
    TimeDistributedLayer.timestep_body NoReuse 0 (slice (encode_seqs 3) <$> seq 0 3)
      {| graph := empty_graph;
         self := based (input_layer "encode_seqs" [32; 3; 100]) dense_instance |}
    = (wfirst, Ok x1) /\
    scopes_entered (trace (graph w'))
    = [] ++ time_dense_scope NoReuse :: replicate 2 (time_dense_scope ReuseTrue) /\
    trace (graph w') = trace (graph wfirst) ++ after /\
    variables_created after = [] /\
    variables (graph w') = variables (graph wfirst).
Proof.
  apply (C3_first_scope_ambient_then_reuse
           DenseLayer dense_args "dense" empty_graph dense_instance
           (input_layer "encode_seqs" [32; 3; 100]) (encode_seqs 3) 32 2 100
           (dense_once 3).1 (dense_net 3)).
  - reflexivity.
  - reflexivity.
  - reflexivity.
  - reflexivity.
  - reflexivity.
  - vm_compute. reflexivity.
  - simpl. lia.
Defined.

(** C4.  An input that is a sequence of per-timestep 2-D tensors, each of
    shape (batch, feature), is stacked (along axis 0) and transposed with
    the permutation (1, 0, 2); the result, which replaces [self.inputs], has
    shape (batch, time, feature) with as many timesteps as the sequence has
    tensors.  An input that is a single tensor is left as it is. *)
Theorem C4_sequence_input_is_stacked_and_transposed :
  (forall (g : Graph) (s : Instance) (ts : list Tensor) (B D : nat),
      inputs s = Some (Many ts) ->
      ts <> [] ->
      Forall (fun u => shape u = [B; D]) ts ->
      exists stacked t',
        tf.stack ts 0 "stack" = Ok stacked /\
        tf.transpose stacked [1; 0; 2] = Ok t' /\
        TimeDistributedLayer.normalize_inputs tf.stack tf.transpose
          {| graph := g; self := s |}
        = ({| graph := g; self := set_inputs (Some (One t')) s |}, Ok t') /\
        shape t' = [B; length ts; D]) /\
  (forall (g : Graph) (s : Instance) (t : Tensor),
      inputs s = Some (One t) ->
      TimeDistributedLayer.normalize_inputs tf.stack tf.transpose
        {| graph := g; self := s |}
      = ({| graph := g; self := s |}, Ok t)).
Proof.
  split.
  - intros g s ts B D Hin Hne Hsh.
    destruct ts as [|t0 ts']; [done|].
    assert (shape t0 = [B; D]) as Ht0 by (by inversion Hsh).
    assert (tf.stack (t0 :: ts') 0 "stack"
            = Ok {| node := NStack (node <$> t0 :: ts') 0 "stack";
                    shape := [length (t0 :: ts'); B; D] |}) as Hstack.
    { unfold tf.stack. rewrite bool_decide_eq_true_2; cycle 1.
      { split; [lia|]. rewrite Ht0. done. }
      rewrite Ht0. done. }
    eexists _, _. split; [exact Hstack|].
    split; [reflexivity|].
    unfold TimeDistributedLayer.normalize_inputs, bind, get_self. cbn [self].
    rewrite Hin. unfold lift. rewrite Hstack. done.
  - intros g s t Hin.
    unfold TimeDistributedLayer.normalize_inputs, bind, get_self. cbn [self].
    rewrite Hin. done.
Qed.

Lemma C4_witness :
  (exists stacked t',
      tf.stack three_steps 0 "stack" = Ok stacked /\
      tf.transpose stacked [1; 0; 2] = Ok t' /\
      TimeDistributedLayer.normalize_inputs tf.stack tf.transpose
        {| graph := empty_graph; self := set_inputs (Some (Many three_steps)) blank |}
      = ({| graph := empty_graph;
            self := set_inputs (Some (One t'))
                      (set_inputs (Some (Many three_steps)) blank) |}, Ok t') /\
      shape t' = [32; length three_steps; 100]) /\
  TimeDistributedLayer.normalize_inputs tf.stack tf.transpose
    {| graph := empty_graph; self := set_inputs (Some (One (encode_seqs 20))) blank |}
  = ({| graph := empty_graph; self := set_inputs (Some (One (encode_seqs 20))) blank |},
     Ok (encode_seqs 20)).
Proof.
  split.
  - apply (proj1 C4_sequence_input_is_stacked_and_transposed
             empty_graph (set_inputs (Some (Many three_steps)) blank) three_steps 32 100).
    + reflexivity.
    + discriminate.
    + repeat constructor.
  - apply (proj2 C4_sequence_input_is_stacked_and_transposed
             empty_graph (set_inputs (Some (One (encode_seqs 20))) blank) (encode_seqs 20)).
    reflexivity.
Defined.

(** C5.  Whatever the tensor engine, when the configuration mapping has no
    ['name'] key and the input does not have zero timesteps, the call
    raises, and it does so before anything is produced or registered: the
    [outputs] field is as it was, the layer and parameter lists are still
    those inherited from the previous layer, and no variable has been
    created. *)
Theorem C5_missing_name_fails_before_output
    (tf_stack : list Tensor -> nat -> string -> Result Tensor)
    (tf_unstack : Tensor -> nat -> Result (list Tensor))
    (tf_transpose : Tensor -> list nat -> Result Tensor)
    (g : Graph) (s : Instance) (prev : LayerObj) (d : Args) :
  layer_args s = Bound (Some d) ->
  dict_get d "name" = None ->
  (forall w0, timesteps_read tf_stack tf_transpose prev {| graph := g; self := s |}
              <> (w0, Ok 0)) ->
  exists w' e,
    TimeDistributedLayer.__call__ tf_stack tf_unstack tf_transpose prev
      {| graph := g; self := s |} = (w', Raise e) /\
    outputs (self w') = outputs s /\
    all_layers (self w') = l_all_layers prev /\
    all_params (self w') = l_all_params prev /\
    _local_weights (self w') = _local_weights s /\
    variables (graph w') = variables g.
Proof.
  intros Hargs Hname Hsteps.
  unfold TimeDistributedLayer.__call__.
  erewrite run_bind; [|apply base_call_run].
  destruct (normalize_inputs_frame tf_stack tf_transpose g (based prev s))
    as (s' & r & Hnorm & Hs').
  assert (outputs s' = outputs s /\ all_layers s' = l_all_layers prev /\
          all_params s' = l_all_params prev /\ _local_weights s' = _local_weights s /\
          layer_args s' = layer_args s) as (Ho & Hal & Hap & Hlw & Hla).
  { rewrite Hs'. done. }
  destruct r as [t|e]; cycle 1.
  { erewrite run_bind_Raise; [|exact Hnorm]. by eexists _, _. }
  erewrite run_bind; [|exact Hnorm].
  assert (forall w, getitem (shape t) 1 w
                    = (w, match shape t !! 1 with
                          | Some T => Ok T
                          | None => Raise IndexError
                          end)) as Hget.
  { intros w. unfold getitem. by destruct (_ !! _). }
  destruct (shape t !! 1) as [T|]; cycle 1.
  { erewrite run_bind_Raise; [|apply Hget]. by eexists _, _. }
  destruct T as [|n].
  { exfalso. apply (Hsteps {| graph := g; self := s' |}).
    unfold timesteps_read.
    erewrite run_bind; [|apply base_call_run].
    erewrite run_bind; [|exact Hnorm].
    apply Hget. }
  erewrite run_bind; [|apply Hget].
  destruct (tf_unstack t 1) as [x|e] eqn:Hun; cycle 1.
  { erewrite run_bind_Raise; [|reflexivity]. by eexists _, _. }
  erewrite run_bind; [|reflexivity].
  erewrite run_bind; [|reflexivity].
  cbn [graph].
  rewrite <- Hla in Hargs.
  destruct (timestep_body_missing_name g s' d (vs_reuse (current_scope g)) 0 x Hargs Hname)
    as (e & Hbody).
  erewrite run_bind_Raise; cycle 1.
  { cbn [for_range]. erewrite run_bind_Raise; [reflexivity|exact Hbody]. }
  by eexists _, _.
Qed.

Lemma C5_witness :
  exists w' e,
    TimeDistributedLayer.__call__ tf.stack tf.unstack tf.transpose
      (input_layer "encode_seqs" [32; 20; 100])
      {| graph := empty_graph; self := nameless_instance |} = (w', Raise e) /\
    outputs (self w') = outputs nameless_instance /\
    all_layers (self w') = l_all_layers (input_layer "encode_seqs" [32; 20; 100]) /\
    all_params (self w') = l_all_params (input_layer "encode_seqs" [32; 20; 100]) /\
    _local_weights (self w') = _local_weights nameless_instance /\
    variables (graph w') = variables empty_graph.
Proof.
  apply (C5_missing_name_fails_before_output tf.stack tf.unstack tf.transpose
           empty_graph nameless_instance (input_layer "encode_seqs" [32; 20; 100])
           nameless_args).
  - reflexivity.
  - reflexivity.
  - intros w0. vm_compute. discriminate.
Defined.







(** C8.  [__str__] never raises on its own account: it hands [_str] the
    fragments it could build and returns what [_str] returns.  A missing
    [layer_class] attribute leaves out the class fragment, a missing
    [layer_args] attribute leaves out the arguments fragment. *)
Theorem C8_str_omits_missing_attributes (_str : list string -> M string) (w : World) :
  exists cf af : list string,
    TimeDistributedLayer.__str__ _str w = _str (cf ++ af) w /\
    (layer_class (self w) = Unset -> cf = []) /\
    (layer_args (self w) = Unset -> af = []) /\
    Forall (fun f => String.prefix "layer_class: " f = true) cf /\
    Forall (fun f => String.prefix "layer_args: " f = true) af.
Proof. apply str_delegates. Qed.

Lemma C8_witness :
  exists cf af : list string,
    TimeDistributedLayer.__str__ describe world0 = describe (cf ++ af) world0 /\
    (layer_class (self world0) = Unset -> cf = []) /\
    (layer_args (self world0) = Unset -> af = []) /\
    Forall (fun f => String.prefix "layer_class: " f = true) cf /\
    Forall (fun f => String.prefix "layer_args: " f = true) af.
Proof. exact (C8_str_omits_missing_attributes describe world0). Defined.

(** C9.  Provided the base layer's [_str] does not modify the state,
    [__str__] leaves the state as it found it, and a second invocation
    returns what the first returned. *)
Theorem C9_str_is_repeatable (_str : list string -> M string) (w : World) :
  (forall fragments w0, (_str fragments w0).1 = w0) ->
  (TimeDistributedLayer.__str__ _str w).1 = w /\
  TimeDistributedLayer.__str__ _str (TimeDistributedLayer.__str__ _str w).1
  = TimeDistributedLayer.__str__ _str w.
Proof.
  intros Hro.
  assert ((TimeDistributedLayer.__str__ _str w).1 = w) as Hsame.
  { destruct (str_delegates _str w) as (cf & af & -> & _). apply Hro. }
  split; [done|]. by rewrite Hsame.
Qed.

Lemma C9_witness :
  (TimeDistributedLayer.__str__ describe dense_start).1 = dense_start /\
  TimeDistributedLayer.__str__ describe (TimeDistributedLayer.__str__ describe dense_start).1
  = TimeDistributedLayer.__str__ describe dense_start.
Proof.
  apply (C9_str_is_repeatable describe dense_start).
  intros fragments w0. reflexivity.
Defined.

(** C10, as stated, fails, whichever way the tensor engine treats an empty
    list of slices.  With [tf.stack] as the library has it, a fresh layer
    fails at line 117, in the restacking, with the [IndexError] of
    [values[0]], before anything is registered.  With an engine that
    accepts the empty list, a layer that has been called before still holds
    the local weights of that call, and the call on zero timesteps
    succeeds, registering them again. *)
Lemma C10_counterexample :
  TimeDistributedLayer.__call__ tf.stack tf.unstack tf.transpose
    (input_layer "encode_seqs" [32; 0; 100]) dense_start
  = ({| graph := empty_graph;
        self := based (input_layer "encode_seqs" [32; 0; 100]) dense_instance |},
     Raise IndexError) /\
  _local_weights (self called_before) = Bound [dense_W; dense_b] /\
  exists w',
    TimeDistributedLayer.__call__ tf.stack_total tf.unstack tf.transpose
      (input_layer "encode_seqs" [32; 0; 100]) called_before = (w', Ok tt) /\
    all_params (self w') = [dense_W; dense_b].
Proof.
  split; [vm_compute; reflexivity|]. split; [vm_compute; reflexivity|].
  eexists. split; [vm_compute; reflexivity|]. done.
Qed.

(** C10, amended.  Whatever the tensor engine, on an input with zero
    timesteps the loop body never runs: the graph is left exactly as it
    was (no scope is entered, no variable created, no collection read), the
    configuration mapping is never consulted, so that no failure comes from
    a missing ['name'] key, and [_local_weights] is not assigned.  The
    outcome is decided by the restacking of the slices and by the field on
    entry: if [tf.stack] raises, the call raises the same exception with
    nothing registered; otherwise the output is registered and then, if
    the instance has no [_local_weights] on entry, reading it raises
    [AttributeError]; if it has, the call succeeds and registers those
    weights. *)
Theorem C10_zero_timesteps
    (tf_stack : list Tensor -> nat -> string -> Result Tensor)
    (tf_unstack : Tensor -> nat -> Result (list Tensor))
    (tf_transpose : Tensor -> list nat -> Result Tensor)
    (g : Graph) (s : Instance) (prev : LayerObj) (t : Tensor) (x : list Tensor) :
  l_outputs prev = One t ->
  shape t !! 1 = Some 0 ->
  tf_unstack t 1 = Ok x ->
  let call := TimeDistributedLayer.__call__ tf_stack tf_unstack tf_transpose prev
                {| graph := g; self := s |} in
  let sb := based prev s in
  match tf_stack x 1 (name s) with
  | Raise e => call = ({| graph := g; self := sb |}, Raise e)
  | Ok out =>
      match _local_weights s with
      | Unset =>
          call = ({| graph := g;
                     self := set_all_layers (all_layers sb ++ [out])
                               (set_outputs (Some out) sb) |},
                  Raise AttributeError)
      | Bound ws =>
          call = ({| graph := g; self := registered out ws sb |}, Ok tt)
      end
  end.
Proof.
  intros Hprev HT Hun call sb. subst call.
  assert (forall w, getitem (shape t) 1 w = (w, Ok 0)) as Hget.
  { intros w. unfold getitem.
    replace (shape t !! 1) with (Some 0). reflexivity. }
  unfold TimeDistributedLayer.__call__.
  erewrite run_bind; [|apply base_call_run].
  erewrite run_bind; cycle 1.
  { unfold TimeDistributedLayer.normalize_inputs, bind, get_self. cbn [self].
    rewrite based_inputs, Hprev. reflexivity. }
  erewrite run_bind; [|apply Hget].
  erewrite run_bind; [|unfold lift; rewrite Hun; reflexivity].
  erewrite run_bind; [|reflexivity].
  cbn [for_range].
  erewrite run_bind; [|reflexivity].
  erewrite run_bind; [|reflexivity].
  cbn [self]. rewrite based_name. fold sb.
  destruct (tf_stack x 1 (name s)) as [out|e]; cycle 1.
  { reflexivity. }
  erewrite run_bind; [|reflexivity].
  erewrite run_bind; [|reflexivity].
  erewrite run_bind; [|reflexivity].
  unfold getattr, bind, get_self.
  cbn [self graph _local_weights set_all_layers set_outputs].
  replace (_local_weights sb) with (_local_weights s) by done.
  destruct (_local_weights s) as [|ws]; reflexivity.
Qed.

Lemma C10_witness :
  TimeDistributedLayer.__call__ tf.stack_total tf.unstack tf.transpose
    (input_layer "encode_seqs" [32; 0; 100]) dense_start
  = ({| graph := empty_graph;
        self := set_all_layers [{| node := NStack [] 1 "time_dense"; shape := [0] |}]
                  (set_outputs (Some {| node := NStack [] 1 "time_dense"; shape := [0] |})
                     (based (input_layer "encode_seqs" [32; 0; 100]) dense_instance)) |},
     Raise AttributeError).
Proof.
  apply (C10_zero_timesteps tf.stack_total tf.unstack tf.transpose
           empty_graph dense_instance (input_layer "encode_seqs" [32; 0; 100])
           (encode_seqs 0) []).
  - reflexivity.
  - reflexivity.
  - reflexivity.
Defined.

(** * Further examples *)

Example str_of_docstring_layer :
  TimeDistributedLayer.__str__ describe dense_start
  = (dense_start,
     Ok "time_dense: layer_class: DenseLayer, layer_args: {'n_units': 50, 'name': 'dense'}").
Proof. vm_compute. reflexivity. Qed.

(** With the tensor engine of the library and a tensor input, the failure
    is the [KeyError] of the lookup at line 110. *)
Example missing_name_is_KeyError :
  (TimeDistributedLayer.__call__ tf.stack tf.unstack tf.transpose
     (input_layer "encode_seqs" [32; 20; 100])
     {| graph := empty_graph; self := nameless_instance |}).2 = Raise KeyError.
Proof. vm_compute. reflexivity. Qed.

(** The docstring: a (32, 20, 100) input gives a (32, 20, 50) output and
    the two parameters [time_dense/dense/W] of shape (100, 50) and
    [time_dense/dense/b] of shape (50,). *)
Example docstring_example :
  exists w',
    time_dense 20 world0 = (w', Ok tt) /\
    shape <$> outputs (self w') = Some [32; 20; 50] /\
    all_params (self w') = [dense_W; dense_b].
Proof. eexists. split; [vm_compute; reflexivity|]. done. Qed.

(** * Further properties *)


(** ** What no call ever does to the graph *)

Lemma continues_refl g : continues g g.
Proof.
  split_and!; [done| |]; exists []; by rewrite app_nil_r.
Qed.

Lemma continues_trans g1 g2 g3 :
  continues g1 g2 -> continues g2 g3 -> continues g1 g3.
Proof.
  intros (Hs1 & (c1 & Hv1) & (e1 & Ht1)) (Hs2 & (c2 & Hv2) & (e2 & Ht2)).
  split_and!.
  - congruence.
  - exists (c1 ++ c2). by rewrite Hv2, Hv1, app_assoc.
  - exists (e1 ++ e2). by rewrite Ht2, Ht1, app_assoc.
Qed.

Lemma steady_ret {A} (a : A) : steady (ret a).
Proof. intros w. apply continues_refl. Qed.

Lemma steady_raise {A} (e : Exn) : steady (@raise A e).
Proof. intros w. apply continues_refl. Qed.

Lemma steady_lift {A} (r : Result A) : steady (lift r).
Proof. intros w. apply continues_refl. Qed.

Lemma steady_bind {A B} (m : M A) (k : A -> M B) :
  steady m -> (forall a, steady (k a)) -> steady (x <- m ;; k x).
Proof.
  intros Hm Hk w. unfold bind. specialize (Hm w).
  destruct (m w) as [w1 [a|e]]; [|done].
  eapply continues_trans; [exact Hm|apply Hk].
Qed.

Lemma steady_get_self : steady get_self.
Proof. intros w. apply continues_refl. Qed.

Lemma steady_setattr upd : steady (setattr upd).
Proof. intros w. apply continues_refl. Qed.

Lemma steady_getattr {A} (f : Instance -> attr A) : steady (getattr f).
Proof.
  apply steady_bind; [apply steady_get_self|].
  intros s. destruct (f s); [apply steady_raise|apply steady_ret].
Qed.

Lemma steady_getitem {A} (l : list A) i : steady (getitem l i).
Proof. unfold getitem. destruct (l !! i); [apply steady_ret|apply steady_raise]. Qed.

Lemma steady_get_variable_scope : steady tf.get_variable_scope.
Proof. intros w. apply continues_refl. Qed.

Lemma steady_log e : steady (tf.log e).
Proof.
  intros [g s]. cbn. split_and!; [done| |].
  - exists []. by rewrite app_nil_r.
  - by eexists.
Qed.

Lemma steady_get_collection sc : steady (tf.get_collection sc).
Proof.
  intros [g s]. cbn. split_and!; [done| |].
  - exists []. by rewrite app_nil_r.
  - by eexists.
Qed.

Lemma steady_get_variable n sh : steady (tf.get_variable n sh).
Proof.
  intros [g s]. unfold tf.get_variable, bind, get_graph, put_graph, ret, raise. cbn.
  destruct (tf.find_variable (variables g) _) as [u|];
    destruct (vs_reuse (current_scope g)); try case_bool_decide; cbn;
    try apply continues_refl.
  all: split_and!; [done|by eexists|by eexists].
Qed.

Lemma steady_get_variables ps : steady (get_variables ps).
Proof.
  induction ps as [|[n sh] ps IH]; cbn; [apply steady_ret|].
  apply steady_bind; [apply steady_get_variable|]. intros v.
  apply steady_bind; [exact IH|]. intros vs. apply steady_ret.
Qed.

Lemma steady_instantiate cls il kw : steady (instantiate cls il kw).
Proof.
  unfold instantiate.
  apply steady_bind; [apply steady_lift|]. intros r.
  apply steady_bind; [apply steady_get_variables|]. intros ws. apply steady_ret.
Qed.

Lemma steady_call_class c il kw : steady (call_class c il kw).
Proof. destruct c; [apply steady_instantiate|apply steady_raise]. Qed.

Lemma steady_sub_name d i : steady (sub_name d i).
Proof.
  unfold sub_name. destruct d as [d|]; [|apply steady_raise].
  destruct (dict_get d "name") as [[z|nm]|];
    [apply steady_raise|apply steady_ret|apply steady_raise].
Qed.

Lemma steady_kwargs_of d : steady (kwargs_of d).
Proof. destruct d; [apply steady_ret|apply steady_raise]. Qed.

(** A block run in a variable scope is steady as soon as its body is: the
    scope entered is left again on every way out. *)
Lemma steady_variable_scope {A} n r (body : VariableScope -> M A) :
  (forall vs, steady (body vs)) -> steady (tf.variable_scope n r body).
Proof.
  intros Hbody [g s].
  unfold tf.variable_scope, bind, tf.get_variable_scope, tf.log, tf.set_scope,
    get_graph, put_graph, ret.
  cbn.
  match goal with
  | |- context [body ?vs ?w_in] =>
      specialize (Hbody vs w_in); destruct (body vs w_in) as [[g1 s1] res]
  end.
  unfold continues in *.
  cbn [graph self variables current_scope trace fst snd] in *.
  destruct Hbody as (_ & (c & Hv) & (ev & Ht)).
  split_and!; [done|by exists c|].
  eexists (_ :: ev). rewrite Ht. by rewrite <- app_assoc.
Qed.

Lemma steady_for_range {L} (body : nat -> L -> M L) :
  (forall i l, steady (body i l)) ->
  forall n lo l, steady (for_range lo n body l).
Proof.
  intros Hbody. induction n as [|n IH]; intros lo l; cbn; [apply steady_ret|].
  apply steady_bind; [apply Hbody|]. intros l'. apply IH.
Qed.

Lemma steady_timestep_body r i x : steady (TimeDistributedLayer.timestep_body r i x).
Proof.
  unfold TimeDistributedLayer.timestep_body.
  apply steady_bind; [apply steady_get_self|]. intros s.
  apply steady_variable_scope. intros vs.
  apply steady_bind; [apply steady_getitem|]. intros xi.
  apply steady_bind; [apply steady_getattr|]. intros d.
  apply steady_bind; [apply steady_sub_name|]. intros nm.
  apply steady_bind; [apply steady_getattr|]. intros c.
  apply steady_bind; [apply steady_getattr|]. intros d'.
  apply steady_bind; [apply steady_kwargs_of|]. intros kw.
  apply steady_bind; [apply steady_call_class|]. intros net.
  apply steady_bind; [apply steady_get_collection|]. intros ws.
  apply steady_bind; [apply steady_setattr|]. intros _. apply steady_ret.
Qed.

Lemma steady_normalize_inputs tf_stack tf_transpose :
  steady (TimeDistributedLayer.normalize_inputs tf_stack tf_transpose).
Proof.
  unfold TimeDistributedLayer.normalize_inputs.
  apply steady_bind; [apply steady_get_self|]. intros s.
  destruct (inputs s) as [[t|ts]|]; [apply steady_ret| |apply steady_raise].
  apply steady_bind; [apply steady_lift|]. intros st.
  apply steady_bind; [apply steady_lift|]. intros t.
  apply steady_bind; [apply steady_setattr|]. intros _. apply steady_ret.
Qed.

Lemma steady_base_call prev : steady (Layer.__call__ prev).
Proof.
  unfold Layer.__call__.
  apply steady_bind; [apply steady_setattr|]. intros _.
  apply steady_bind; [apply steady_setattr|]. intros _. apply steady_setattr.
Qed.

(** X1.  The call restores the variable scope and never removes or replaces a
    variable, whatever the tensor engine, the inner class, the instance and
    the input, and whether it returns or raises: the scope that is current
    afterwards is the one that was current before, and the store and the
    trace are the old ones with, at most, something appended.  *)
Theorem call_restores_scope_and_keeps_variables
    (tf_stack : list Tensor -> nat -> string -> Result Tensor)
    (tf_unstack : Tensor -> nat -> Result (list Tensor))
    (tf_transpose : Tensor -> list nat -> Result Tensor)
    (prev : LayerObj) (w : World) :
  let w' := (TimeDistributedLayer.__call__ tf_stack tf_unstack tf_transpose prev w).1 in
  current_scope (graph w') = current_scope (graph w) /\
  (exists created, variables (graph w') = variables (graph w) ++ created) /\
  (exists events, trace (graph w') = trace (graph w) ++ events).
Proof.
  cbn zeta. revert w. change (steady
    (TimeDistributedLayer.__call__ tf_stack tf_unstack tf_transpose prev)).
  unfold TimeDistributedLayer.__call__.
  apply steady_bind; [apply steady_base_call|]. intros _.
  apply steady_bind; [apply steady_normalize_inputs|]. intros t.
  apply steady_bind; [apply steady_getitem|]. intros timestep.
  apply steady_bind; [apply steady_lift|]. intros x.
  apply steady_bind; [apply steady_get_variable_scope|]. intros vs0.
  apply steady_bind; [apply steady_for_range, steady_timestep_body|]. intros x'.
  apply steady_bind; [apply steady_get_self|]. intros s.
  apply steady_bind; [apply steady_lift|]. intros out.
  apply steady_bind; [apply steady_setattr|]. intros _.
  apply steady_bind.
  { unfold Layer._add_layers. apply steady_bind; [apply steady_get_self|].
    intros s'. apply steady_setattr. }
  intros _.
  apply steady_bind; [apply steady_getattr|]. intros ws.
  unfold Layer._add_params. apply steady_bind; [apply steady_get_self|].
  intros s'. apply steady_setattr.
Qed.

(** ** Sequence inputs *)

Lemma call_on_sequence_eq
    (tf_stack : list Tensor -> nat -> string -> Result Tensor)
    (tf_unstack : Tensor -> nat -> Result (list Tensor))
    (tf_transpose : Tensor -> list nat -> Result Tensor)
    (prev : LayerObj) (w : World) (ts : list Tensor) (stacked t : Tensor) :
  l_outputs prev = Many ts ->
  tf_stack ts 0 "stack" = Ok stacked ->
  tf_transpose stacked [1; 0; 2] = Ok t ->
  TimeDistributedLayer.__call__ tf_stack tf_unstack tf_transpose prev w
  = TimeDistributedLayer.__call__ tf_stack tf_unstack tf_transpose
      (with_outputs (One t) prev) w.
Proof.
  intros Hprev Hstack Htr. destruct w as [g s].
  unfold TimeDistributedLayer.__call__.
  erewrite run_bind; [|apply base_call_run].
  erewrite (run_bind (Layer.__call__ (with_outputs (One t) prev)));
    [|apply base_call_run].
  erewrite run_bind; cycle 1.
  { unfold TimeDistributedLayer.normalize_inputs, bind, get_self, lift. cbn [self].
    rewrite based_inputs, Hprev, Hstack, Htr. reflexivity. }
  erewrite (run_bind (TimeDistributedLayer.normalize_inputs tf_stack tf_transpose) _
              {| graph := g; self := based (with_outputs (One t) prev) s |}); cycle 1.
  { reflexivity. }
  reflexivity.
Qed.

(** X2.  Calling the layer on a sequence of tensors is calling it on the one
    tensor the sequence stacks and transposes to: the two calls end in the
    same state with the same result, whatever the tensor engine. *)
Theorem call_on_sequence_is_call_on_stacked_tensor
    (tf_stack : list Tensor -> nat -> string -> Result Tensor)
    (tf_unstack : Tensor -> nat -> Result (list Tensor))
    (tf_transpose : Tensor -> list nat -> Result Tensor)
    (prev : LayerObj) (w : World) (ts : list Tensor) (stacked t : Tensor) :
  l_outputs prev = Many ts ->
  tf_stack ts 0 "stack" = Ok stacked ->
  tf_transpose stacked [1; 0; 2] = Ok t ->
  TimeDistributedLayer.__call__ tf_stack tf_unstack tf_transpose prev w
  = TimeDistributedLayer.__call__ tf_stack tf_unstack tf_transpose
      (with_outputs (One t) prev) w.
Proof. apply call_on_sequence_eq. Qed.

Lemma call_on_sequence_witness :
  TimeDistributedLayer.__call__ tf.stack tf.unstack tf.transpose
    (with_outputs (Many three_steps) (input_layer "x" [])) dense_start
  = TimeDistributedLayer.__call__ tf.stack tf.unstack tf.transpose
      (with_outputs
         (One {| node := NTranspose (NStack (node <$> three_steps) 0 "stack") [1; 0; 2];
                 shape := [32; 3; 100] |})
         (with_outputs (Many three_steps) (input_layer "x" []))) dense_start.
Proof.
  apply (call_on_sequence_is_call_on_stacked_tensor tf.stack tf.unstack tf.transpose
           (with_outputs (Many three_steps) (input_layer "x" [])) dense_start three_steps
           {| node := NStack (node <$> three_steps) 0 "stack"; shape := [3; 32; 100] |}).
  - reflexivity.
  - reflexivity.
  - reflexivity.
Defined.

(** X3.  A sequence whose tensors cannot be stacked or transposed makes the call
    raise what the tensor engine raised, before the instance has changed
    beyond what the base call did and with the graph untouched. *)
Theorem call_on_unstackable_sequence_raises
    (tf_stack : list Tensor -> nat -> string -> Result Tensor)
    (tf_unstack : Tensor -> nat -> Result (list Tensor))
    (tf_transpose : Tensor -> list nat -> Result Tensor)
    (prev : LayerObj) (g : Graph) (s : Instance) (ts : list Tensor) (e : Exn) :
  l_outputs prev = Many ts ->
  (tf_stack ts 0 "stack" = Raise e \/
   exists stacked, tf_stack ts 0 "stack" = Ok stacked /\
                   tf_transpose stacked [1; 0; 2] = Raise e) ->
  TimeDistributedLayer.__call__ tf_stack tf_unstack tf_transpose prev
    {| graph := g; self := s |}
  = ({| graph := g; self := based prev s |}, Raise e).
Proof.
  intros Hprev Hfail.
  unfold TimeDistributedLayer.__call__.
  erewrite run_bind; [|apply base_call_run].
  erewrite run_bind_Raise; [reflexivity|].
  unfold TimeDistributedLayer.normalize_inputs, bind, get_self, lift. cbn [self].
  rewrite based_inputs, Hprev.
  destruct Hfail as [-> | (stacked & -> & ->)]; reflexivity.
Qed.

Lemma call_on_unstackable_sequence_witness :
  TimeDistributedLayer.__call__ tf.stack tf.unstack tf.transpose
    (with_outputs (Many ragged_steps) (input_layer "x" [])) dense_start
  = ({| graph := empty_graph;
        self := based (with_outputs (Many ragged_steps) (input_layer "x" []))
                  dense_instance |},
     Raise ValueError).
Proof.
  apply (call_on_unstackable_sequence_raises tf.stack tf.unstack tf.transpose
           (with_outputs (Many ragged_steps) (input_layer "x" []))
           empty_graph dense_instance ragged_steps ValueError).
  - reflexivity.
  - left. reflexivity.
Defined.

Lemma sequence_normal_form ts B D :
  ts <> [] ->
  Forall (fun u => shape u = [B; D]) ts ->
  exists stacked,
    tf.stack ts 0 "stack" = Ok stacked /\
    tf.transpose stacked [1; 0; 2] = Ok (stacked_sequence ts B D).
Proof.
  intros Hne Hsh. destruct ts as [|t0 ts']; [done|].
  assert (shape t0 = [B; D]) as Ht0 by (by inversion Hsh).
  exists {| node := NStack (node <$> t0 :: ts') 0 "stack";
            shape := [length (t0 :: ts'); B; D] |}.
  split; [|reflexivity].
  unfold tf.stack. rewrite bool_decide_eq_true_2; cycle 1.
  { split; [lia|]. rewrite Ht0. done. }
  rewrite Ht0. done.
Qed.

(** X4.  A sequence of [S n] tensors of shape (B, D), given to a layer whose
    inner class yields (B, D') on a (B, D) slice and can be instantiated on
    one, gives an output of shape (B, S n, D'): one output timestep per
    tensor of the sequence. *)
Theorem sequence_output_shape
    (cls : LayerClass) (d : Args) (nm : string) (g : Graph) (s : Instance)
    (prev : LayerObj) (ts : list Tensor) (B n D D' : nat)
    (ps : list (string * Shape)) (w1 : World) (net : Net) :
  layer_class s = Bound (Some cls) ->
  layer_args s = Bound (Some d) ->
  dict_get d "name" = Some (PyStr nm) ->
  l_outputs prev = Many ts ->
  length ts = S n ->
  Forall (fun u => shape u = [B; D]) ts ->
  cls_spec cls d [B; D] = Ok (ps, [B; D']) ->
  single_timestep cls d (name s) (slice (stacked_sequence ts B D) 0)
    {| graph := g; self := s |} = (w1, Ok net) ->
  exists w' out,
    TimeDistributedLayer.__call__ tf.stack tf.unstack tf.transpose prev
      {| graph := g; self := s |} = (w', Ok tt) /\
    outputs (self w') = Some out /\
    inputs (self w') = Some (One (stacked_sequence ts B D)) /\
    shape out = [B; S n; D'].
Proof.
  intros Hcls Hargs Hname Hprev Hlen Hsh Hspec Hone.
  assert (ts <> []) as Hne by (intros ->; done).
  destruct (sequence_normal_form ts B D Hne Hsh) as (stacked & Hst & Htr).
  rewrite (call_on_sequence_eq tf.stack tf.unstack tf.transpose prev _ ts stacked
             (stacked_sequence ts B D) Hprev Hst Htr).
  apply single_timestep_Ok in Hone as (ps' & osh & w1' & ws & Hspec' & Hgv & _).
  assert (shape (stacked_sequence ts B D) = [B; S n; D]) as Ht.
  { unfold stacked_sequence. cbn [shape]. by rewrite Hlen. }
  assert (shape (slice (stacked_sequence ts B D) 0) = [B; D]) as Hsl by done.
  rewrite Hsl, Hspec in Hspec'. injection Hspec' as <- <-.
  assert (1 <= length [B; D']) as Hrank by (simpl; lia).
  pose proof (call_Ok cls d nm g s (with_outputs (One (stacked_sequence ts B D)) prev)
                (stacked_sequence ts B D) B n D ps [B; D'] Hcls Hargs Hname eq_refl Ht
                Hspec Hrank w1' ws Hgv) as Hcall.
  cbn zeta in Hcall. eexists _, _. split; [exact Hcall|]. done.
Qed.

Lemma sequence_output_shape_witness :
  exists w' out,
    TimeDistributedLayer.__call__ tf.stack tf.unstack tf.transpose
      (with_outputs (Many three_steps) (input_layer "x" [])) dense_start = (w', Ok tt) /\
    outputs (self w') = Some out /\
    inputs (self w') = Some (One (stacked_sequence three_steps 32 100)) /\
    shape out = [32; 3; 50].
Proof.
  apply (sequence_output_shape
           DenseLayer dense_args "dense" empty_graph dense_instance
           (with_outputs (Many three_steps) (input_layer "x" [])) three_steps 32 2 100 50
           [("dense/W", [100; 50]); ("dense/b", [50])]
           (dense_once_on (stacked_sequence three_steps 32 100)).1
           {| net_outputs := applied DenseLayer [dense_W; dense_b] [32; 50]
                               (slice (stacked_sequence three_steps 32 100) 0);
              net_weights := [dense_W; dense_b] |}).
  - reflexivity.
  - reflexivity.
  - reflexivity.
  - reflexivity.
  - reflexivity.
  - repeat constructor.
  - reflexivity.
  - vm_compute. reflexivity.
Defined.

(** ** Inputs and configurations the call rejects *)

Ltac enter_the_scope :=
  unfold TimeDistributedLayer.timestep_body, tf.variable_scope;
  unfold bind at 1; unfold get_self at 1; cbn [self];
  unfold bind at 1; unfold tf.get_variable_scope, bind at 1, get_graph at 1, ret at 1;
  cbn [graph];
  unfold bind at 1; unfold tf.log at 1, bind at 1, get_graph at 1, put_graph at 1;
  cbn [graph self variables current_scope trace];
  unfold bind at 1; unfold tf.set_scope at 1, bind at 1, get_graph at 1, put_graph at 1;
  cbn [graph self variables current_scope trace].

Ltac leave_the_scope :=
  unfold tf.set_scope, bind, get_graph, put_graph;
  cbn [graph self variables current_scope trace]; done.

Lemma timestep_body_no_args g s r i x xi :
  layer_args s = Bound None ->
  x !! i = Some xi ->
  TimeDistributedLayer.timestep_body r i x {| graph := g; self := s |}
  = (scope_entered g s (reuse_at r i), Raise TypeError).
Proof.
  intros Hargs Hxi. enter_the_scope.
  unfold getitem. rewrite Hxi.
  unfold bind at 1, ret at 1.
  unfold bind at 1, getattr at 1, bind at 1, get_self at 1. cbn [self].
  rewrite Hargs. unfold ret at 1.
  unfold bind at 1, sub_name, raise at 1.
  leave_the_scope.
Qed.

Lemma timestep_body_name_not_str g s d z r i x xi :
  layer_args s = Bound (Some d) ->
  dict_get d "name" = Some (PyInt z) ->
  x !! i = Some xi ->
  TimeDistributedLayer.timestep_body r i x {| graph := g; self := s |}
  = (scope_entered g s (reuse_at r i), Raise TypeError).
Proof.
  intros Hargs Hname Hxi. enter_the_scope.
  unfold getitem. rewrite Hxi.
  unfold bind at 1, ret at 1.
  unfold bind at 1, getattr at 1, bind at 1, get_self at 1. cbn [self].
  rewrite Hargs. unfold ret at 1.
  unfold bind at 1, sub_name. rewrite Hname. unfold raise at 1.
  leave_the_scope.
Qed.

Lemma timestep_body_no_class g s d nm r i x xi :
  layer_class s = Bound None ->
  layer_args s = Bound (Some d) ->
  dict_get d "name" = Some (PyStr nm) ->
  x !! i = Some xi ->
  TimeDistributedLayer.timestep_body r i x {| graph := g; self := s |}
  = (scope_entered g s (reuse_at r i), Raise TypeError).
Proof.
  intros Hcls Hargs Hname Hxi. enter_the_scope.
  unfold getitem. rewrite Hxi.
  unfold bind at 1, ret at 1.
  unfold bind at 1, getattr at 1, bind at 1, get_self at 1. cbn [self].
  rewrite Hargs. unfold ret at 1.
  unfold bind at 1, sub_name. rewrite Hname. unfold ret at 1.
  unfold bind at 1, getattr at 1, bind at 1, get_self at 1. cbn [self].
  rewrite Hcls. unfold ret at 1.
  unfold bind at 1, getattr at 1, bind at 1, get_self at 1. cbn [self].
  rewrite Hargs. unfold ret at 1.
  unfold bind at 1, kwargs_of, ret at 1.
  unfold bind at 1, call_class, raise at 1.
  leave_the_scope.
Qed.

(** When the lines before the loop go through on a tensor with at least
    one timestep and the first iteration raises, the call raises the same
    exception in the state that iteration left. *)
Lemma call_Raise_in_first_iteration
    (tf_stack : list Tensor -> nat -> string -> Result Tensor)
    (tf_unstack : Tensor -> nat -> Result (list Tensor))
    (tf_transpose : Tensor -> list nat -> Result Tensor)
    g s prev t n x w1 e :
  l_outputs prev = One t ->
  shape t !! 1 = Some (S n) ->
  tf_unstack t 1 = Ok x ->
  TimeDistributedLayer.timestep_body (vs_reuse (current_scope g)) 0 x
    {| graph := g; self := based prev s |} = (w1, Raise e) ->
  TimeDistributedLayer.__call__ tf_stack tf_unstack tf_transpose prev
    {| graph := g; self := s |} = (w1, Raise e).
Proof.
  intros Hprev HT Hun Hbody.
  assert (forall w, getitem (shape t) 1 w = (w, Ok (S n))) as Hget.
  { intros w. unfold getitem. replace (shape t !! 1) with (Some (S n)). reflexivity. }
  unfold TimeDistributedLayer.__call__.
  erewrite run_bind; [|apply base_call_run].
  erewrite run_bind; cycle 1.
  { unfold TimeDistributedLayer.normalize_inputs, bind, get_self. cbn [self].
    rewrite based_inputs, Hprev. reflexivity. }
  erewrite run_bind; [|apply Hget].
  erewrite run_bind; [|unfold lift; rewrite Hun; reflexivity].
  erewrite run_bind; [|reflexivity].
  cbn [graph].
  erewrite run_bind_Raise; [reflexivity|].
  cbn [for_range].
  erewrite run_bind_Raise; [reflexivity|exact Hbody].
Qed.

(** X5.  A tensor input of rank below 2 has no time axis: reading
    [input_shape[1]] raises [IndexError], with the graph untouched and
    nothing but the base call's bookkeeping done to the instance. *)
Theorem call_on_input_without_time_axis_raises_IndexError
    (tf_stack : list Tensor -> nat -> string -> Result Tensor)
    (tf_unstack : Tensor -> nat -> Result (list Tensor))
    (tf_transpose : Tensor -> list nat -> Result Tensor)
    (g : Graph) (s : Instance) (prev : LayerObj) (t : Tensor) :
  l_outputs prev = One t ->
  length (shape t) < 2 ->
  TimeDistributedLayer.__call__ tf_stack tf_unstack tf_transpose prev
    {| graph := g; self := s |}
  = ({| graph := g; self := based prev s |}, Raise IndexError).
Proof.
  intros Hprev Hrank.
  assert (forall w, getitem (shape t) 1 w = (w, Raise IndexError)) as Hget.
  { intros w. unfold getitem.
    replace (shape t !! 1) with (@None nat); [reflexivity|].
    symmetry. apply lookup_ge_None_2. lia. }
  unfold TimeDistributedLayer.__call__.
  erewrite run_bind; [|apply base_call_run].
  erewrite run_bind; cycle 1.
  { unfold TimeDistributedLayer.normalize_inputs, bind, get_self. cbn [self].
    rewrite based_inputs, Hprev. reflexivity. }
  erewrite run_bind_Raise; [reflexivity|apply Hget].
Qed.

Lemma call_on_input_without_time_axis_witness :
  TimeDistributedLayer.__call__ tf.stack tf.unstack tf.transpose
    (input_layer "vector" [32]) dense_start
  = ({| graph := empty_graph; self := based (input_layer "vector" [32]) dense_instance |},
     Raise IndexError).
Proof.
  apply (call_on_input_without_time_axis_raises_IndexError
           tf.stack tf.unstack tf.transpose empty_graph dense_instance
           (input_layer "vector" [32]) (placeholder "vector" [32])).
  - reflexivity.
  - simpl. lia.
Defined.

(** X6.  With [layer_args] holding [None] and a valid scope name, a call
    on an input with at least one timestep raises [TypeError] at line 110,
    [None] having no items: the scope has been entered and left, no
    variable has been created, and nothing has been produced or
    registered. *)
Theorem call_without_layer_args_raises_TypeError
    (tf_stack : list Tensor -> nat -> string -> Result Tensor)
    (tf_unstack : Tensor -> nat -> Result (list Tensor))
    (tf_transpose : Tensor -> list nat -> Result Tensor)
    (g : Graph) (s : Instance) (prev : LayerObj) (t x0 : Tensor) (xs : list Tensor)
    (n : nat) :
  tf.valid_scope_name (name s) = true ->
  layer_args s = Bound None ->
  l_outputs prev = One t ->
  shape t !! 1 = Some (S n) ->
  tf_unstack t 1 = Ok (x0 :: xs) ->
  TimeDistributedLayer.__call__ tf_stack tf_unstack tf_transpose prev
    {| graph := g; self := s |}
  = (scope_entered g (based prev s) (vs_reuse (current_scope g)), Raise TypeError).
Proof.
  intros _ Hargs Hprev HT Hun.
  eapply call_Raise_in_first_iteration; try done.
  by apply (timestep_body_no_args g (based prev s) _ 0 (x0 :: xs) x0).
Qed.

(** X7.  With a ['name'] that is not a string and a valid scope name, the
    sub-name [name + str(i)] cannot be formed: the call raises [TypeError]
    at line 110 in the same way. *)
Theorem call_with_non_string_name_raises_TypeError
    (tf_stack : list Tensor -> nat -> string -> Result Tensor)
    (tf_unstack : Tensor -> nat -> Result (list Tensor))
    (tf_transpose : Tensor -> list nat -> Result Tensor)
    (g : Graph) (s : Instance) (prev : LayerObj) (t x0 : Tensor) (xs : list Tensor)
    (n : nat) (d : Args) (z : Z) :
  tf.valid_scope_name (name s) = true ->
  layer_args s = Bound (Some d) ->
  dict_get d "name" = Some (PyInt z) ->
  l_outputs prev = One t ->
  shape t !! 1 = Some (S n) ->
  tf_unstack t 1 = Ok (x0 :: xs) ->
  TimeDistributedLayer.__call__ tf_stack tf_unstack tf_transpose prev
    {| graph := g; self := s |}
  = (scope_entered g (based prev s) (vs_reuse (current_scope g)), Raise TypeError).
Proof.
  intros _ Hargs Hname Hprev HT Hun.
  eapply call_Raise_in_first_iteration; try done.
  by apply (timestep_body_name_not_str g (based prev s) d z _ 0 (x0 :: xs) x0).
Qed.

(** X8.  With [layer_class] left at the constructor's default, [None], a
    valid scope name and a configuration that names the layer, the call
    gets as far as line 112 and raises [TypeError] there, [None] not being
    callable: no variable has been created and nothing has been produced
    or registered. *)
Theorem call_without_layer_class_raises_TypeError
    (tf_stack : list Tensor -> nat -> string -> Result Tensor)
    (tf_unstack : Tensor -> nat -> Result (list Tensor))
    (tf_transpose : Tensor -> list nat -> Result Tensor)
    (g : Graph) (s : Instance) (prev : LayerObj) (t x0 : Tensor) (xs : list Tensor)
    (n : nat) (d : Args) (nm : string) :
  tf.valid_scope_name (name s) = true ->
  layer_class s = Bound None ->
  layer_args s = Bound (Some d) ->
  dict_get d "name" = Some (PyStr nm) ->
  l_outputs prev = One t ->
  shape t !! 1 = Some (S n) ->
  tf_unstack t 1 = Ok (x0 :: xs) ->
  TimeDistributedLayer.__call__ tf_stack tf_unstack tf_transpose prev
    {| graph := g; self := s |}
  = (scope_entered g (based prev s) (vs_reuse (current_scope g)), Raise TypeError).
Proof.
  intros _ Hcls Hargs Hname Hprev HT Hun.
  eapply call_Raise_in_first_iteration; try done.
  by apply (timestep_body_no_class g (based prev s) d nm _ 0 (x0 :: xs) x0).
Qed.

Lemma call_without_layer_args_witness :
  TimeDistributedLayer.__call__ tf.stack tf.unstack tf.transpose
    (input_layer "encode_seqs" [32; 20; 100])
    {| graph := empty_graph; self := argless_instance |}
  = (scope_entered empty_graph
       (based (input_layer "encode_seqs" [32; 20; 100]) argless_instance) NoReuse,
     Raise TypeError).
Proof.
  apply (call_without_layer_args_raises_TypeError tf.stack tf.unstack tf.transpose
           empty_graph argless_instance (input_layer "encode_seqs" [32; 20; 100])
           (encode_seqs 20) (slice (encode_seqs 20) 0)
           (slice (encode_seqs 20) <$> seq 1 19) 19).
  - reflexivity.
  - reflexivity.
  - reflexivity.
  - reflexivity.
  - reflexivity.
Defined.

Lemma call_with_non_string_name_witness :
  TimeDistributedLayer.__call__ tf.stack tf.unstack tf.transpose
    (input_layer "encode_seqs" [32; 20; 100])
    {| graph := empty_graph; self := numbered_instance |}
  = (scope_entered empty_graph
       (based (input_layer "encode_seqs" [32; 20; 100]) numbered_instance) NoReuse,
     Raise TypeError).
Proof.
  apply (call_with_non_string_name_raises_TypeError tf.stack tf.unstack tf.transpose
           empty_graph numbered_instance (input_layer "encode_seqs" [32; 20; 100])
           (encode_seqs 20) (slice (encode_seqs 20) 0)
           (slice (encode_seqs 20) <$> seq 1 19) 19 numbered_args 7).
  - reflexivity.
  - reflexivity.
  - reflexivity.
  - reflexivity.
  - reflexivity.
  - reflexivity.
Defined.

Lemma call_without_layer_class_witness :
  TimeDistributedLayer.__call__ tf.stack tf.unstack tf.transpose
    (input_layer "encode_seqs" [32; 20; 100])
    {| graph := empty_graph; self := classless_instance |}
  = (scope_entered empty_graph
       (based (input_layer "encode_seqs" [32; 20; 100]) classless_instance) NoReuse,
     Raise TypeError).
Proof.
  apply (call_without_layer_class_raises_TypeError tf.stack tf.unstack tf.transpose
           empty_graph classless_instance (input_layer "encode_seqs" [32; 20; 100])
           (encode_seqs 20) (slice (encode_seqs 20) 0)
           (slice (encode_seqs 20) <$> seq 1 19) 19 dense_args "dense").
  - reflexivity.
  - reflexivity.
  - reflexivity.
  - reflexivity.
  - reflexivity.
  - reflexivity.
  - reflexivity.
Defined.

(** ** Calling again in the same graph *)

Lemma get_variables_exists_NoReuse p ps w :
  vs_reuse (current_scope (graph w)) = NoReuse ->
  provided (variables (graph w)) (vs_name (current_scope (graph w))) (p :: ps) ->
  get_variables (p :: ps) w = (w, Raise ValueError).
Proof.
  intros Hr Hprov. inversion Hprov as [|? ? (v & Hf & _) _]; subst.
  destruct p as [n sh]. destruct w as [g s]. cbn [get_variables].
  erewrite run_bind_Raise; [reflexivity|].
  unfold tf.get_variable, bind, get_graph, raise. cbn [graph] in *.
  cbn [fst] in Hf. rewrite Hf, Hr. reflexivity.
Qed.

(** X9.  After a successful call, a layer with the same inner class,
    configuration and name can be called in the resulting graph under a
    reusing scope, on an input with the same batch and feature sizes and
    any number [S m] of timesteps: the call succeeds without creating a
    variable and holds the same local weights as the first. *)
Theorem second_call_under_reuse_shares_the_weights
    (cls : LayerClass) (d : Args) (nm : string) (g : Graph) (s s2 : Instance)
    (prev prev2 : LayerObj) (t t2 : Tensor) (B n m D : nat) (w1 : World) (net : Net) :
  layer_class s = Bound (Some cls) ->
  layer_args s = Bound (Some d) ->
  dict_get d "name" = Some (PyStr nm) ->
  layer_class s2 = Bound (Some cls) ->
  layer_args s2 = Bound (Some d) ->
  name s2 = name s ->
  l_outputs prev = One t ->
  shape t = [B; S n; D] ->
  l_outputs prev2 = One t2 ->
  shape t2 = [B; S m; D] ->
  single_timestep cls d (name s) (slice t 0) {| graph := g; self := s |} = (w1, Ok net) ->
  1 <= length (shape (net_outputs net)) ->
  exists w' w'',
    TimeDistributedLayer.__call__ tf.stack tf.unstack tf.transpose prev
      {| graph := g; self := s |} = (w', Ok tt) /\
    TimeDistributedLayer.__call__ tf.stack tf.unstack tf.transpose prev2
      {| graph := reusing (graph w'); self := s2 |} = (w'', Ok tt) /\
    variables (graph w'') = variables (graph w') /\
    _local_weights (self w'') = _local_weights (self w').
Proof.
  intros Hcls Hargs Hname Hcls2 Hargs2 Hnm Hprev Ht Hprev2 Ht2 Hone Hrank.
  apply single_timestep_Ok in Hone as (ps & osh & w1' & ws & Hspec & Hgv & HV & _ & ->).
  assert (shape (slice t 0) = [B; D]) as Hsl by (simpl; by rewrite Ht).
  rewrite Hsl in Hspec. cbn [net_outputs net_weights applied shape] in *.
  pose proof (call_Ok cls d nm g s prev t B n D ps osh Hcls Hargs Hname Hprev Ht
                Hspec Hrank w1' ws Hgv) as Hcall.
  pose proof (get_variables_Ok _ _ _ _ Hgv) as (_ & _ & _ & Hprov & _).
  cbn [graph current_scope vs_name enter] in Hprov.
  cbn zeta in Hcall.
  eexists _, _. split; [exact Hcall|].
  cbn [graph self variables trace current_scope].
  match goal with
  | |- TimeDistributedLayer.__call__ _ _ _ _ {| graph := ?g2; self := _ |} = _ /\ _ =>
      set (G2 := g2)
  end.
  assert (get_variables ps
            {| graph := {| variables := variables G2;
                           current_scope := enter (current_scope G2) (name s2)
                                              (vs_reuse (current_scope G2));
                           trace := trace G2
                                    ++ [EnterScope (enter (current_scope G2) (name s2)
                                                      (vs_reuse (current_scope G2)))] |};
               self := s2 |}
          = ({| graph := {| variables := variables G2;
                           current_scope := enter (current_scope G2) (name s2)
                                              (vs_reuse (current_scope G2));
                           trace := trace G2
                                    ++ [EnterScope (enter (current_scope G2) (name s2)
                                                      (vs_reuse (current_scope G2)))] |};
               self := s2 |},
             Ok (lookup_params (variables (graph w1')) 
                   (tf.join (vs_name (current_scope g)) (name s)) ps))) as Hgv2.
  { rewrite get_variables_reuse; cbn [graph variables current_scope vs_name vs_reuse
                                       enter G2 reusing]; rewrite ?Hnm; done. }
  pose proof (call_Ok cls d nm G2 s2 prev2 t2 B m D ps osh Hcls2 Hargs2 Hname Hprev2 Ht2
                Hspec Hrank _ _ Hgv2) as Hcall2.
  cbn zeta in Hcall2. split; [exact Hcall2|].
  cbn [graph self variables _local_weights registered set_all_params set_all_layers
       set_outputs set_local_weights G2 reusing current_scope vs_name].
  rewrite Hnm. done.
Qed.

(** X10.  After a successful call in a scope that does not reuse, calling a layer
    with the same inner class, configuration and name in the resulting
    graph raises [ValueError], the first variable the inner class asks for
    existing already: nothing is created, produced or registered. *)
Theorem second_call_without_reuse_raises_ValueError
    (cls : LayerClass) (d : Args) (nm : string) (g : Graph) (s s2 : Instance)
    (prev prev2 : LayerObj) (t t2 : Tensor) (B n m D : nat)
    (p : string * Shape) (ps : list (string * Shape)) (osh : Shape)
    (w1 : World) (net : Net) :
  vs_reuse (current_scope g) = NoReuse ->
  layer_class s = Bound (Some cls) ->
  layer_args s = Bound (Some d) ->
  dict_get d "name" = Some (PyStr nm) ->
  layer_class s2 = Bound (Some cls) ->
  layer_args s2 = Bound (Some d) ->
  name s2 = name s ->
  l_outputs prev = One t ->
  shape t = [B; S n; D] ->
  l_outputs prev2 = One t2 ->
  shape t2 = [B; S m; D] ->
  cls_spec cls d [B; D] = Ok (p :: ps, osh) ->
  single_timestep cls d (name s) (slice t 0) {| graph := g; self := s |} = (w1, Ok net) ->
  1 <= length osh ->
  exists w' w'',
    TimeDistributedLayer.__call__ tf.stack tf.unstack tf.transpose prev
      {| graph := g; self := s |} = (w', Ok tt) /\
    TimeDistributedLayer.__call__ tf.stack tf.unstack tf.transpose prev2
      {| graph := graph w'; self := s2 |} = (w'', Raise ValueError) /\
    variables (graph w'') = variables (graph w') /\
    outputs (self w'') = outputs s2 /\
    all_layers (self w'') = l_all_layers prev2 /\
    all_params (self w'') = l_all_params prev2.
Proof.
  intros Hr Hcls Hargs Hname Hcls2 Hargs2 Hnm Hprev Ht Hprev2 Ht2 Hspec Hone Hrank.
  apply single_timestep_Ok in Hone as (ps' & osh' & w1' & ws & Hspec' & Hgv & HV & _ & ->).
  assert (shape (slice t 0) = [B; D]) as Hsl by (simpl; by rewrite Ht).
  rewrite Hsl, Hspec in Hspec'. injection Hspec' as <- <-.
  pose proof (call_Ok cls d nm g s prev t B n D (p :: ps) osh Hcls Hargs Hname Hprev Ht
                Hspec Hrank w1' ws Hgv) as Hcall.
  pose proof (get_variables_Ok _ _ _ _ Hgv) as (_ & _ & _ & Hprov & _).
  cbn [graph current_scope vs_name enter] in Hprov.
  cbn zeta in Hcall.
  eexists _, _. split; [exact Hcall|].
  cbn [graph self variables trace current_scope].
  match goal with
  | |- TimeDistributedLayer.__call__ _ _ _ _ {| graph := ?g2; self := _ |} = _ /\ _ =>
      set (G2 := g2)
  end.
  set (inside2 := {| graph := {| variables := variables G2;
                                 current_scope := enter (current_scope G2) (name s2)
                                                    (vs_reuse (current_scope G2));
                                 trace := trace G2
                                          ++ [EnterScope (enter (current_scope G2) (name s2)
                                                            (vs_reuse (current_scope G2)))] |};
                     self := s2 |}).
  assert (instantiate cls (InputLayer (slice t2 0) "") d inside2
          = (inside2, Raise ValueError)) as Hin.
  { unfold instantiate. erewrite run_bind; cycle 1.
    { unfold lift, InputLayer. cbn [il_outputs slice shape]. rewrite Ht2.
      cbn [take drop app]. rewrite Hspec. reflexivity. }
    cbn [fst]. erewrite run_bind_Raise; [reflexivity|].
    apply get_variables_exists_NoReuse.
    - subst inside2 G2. cbn [graph current_scope vs_reuse enter]. rewrite Hr. done.
    - subst inside2 G2. cbn [graph current_scope vs_name variables enter].
      rewrite Hnm. exact Hprov. }
  pose proof (call_Raise_first cls d nm G2 s2 prev2 t2 B m D "" inside2 ValueError
                Hcls2 Hargs2 Hname Hprev2 Ht2 Hin) as Hcall2.
  split; [exact Hcall2|]. done.
Qed.

Lemma second_call_under_reuse_witness :
  exists w' w'',
    TimeDistributedLayer.__call__ tf.stack tf.unstack tf.transpose
      (input_layer "encode_seqs" [32; 20; 100]) dense_start = (w', Ok tt) /\
    TimeDistributedLayer.__call__ tf.stack tf.unstack tf.transpose
      (input_layer "decode_seqs" [32; 5; 100])
      {| graph := reusing (graph w'); self := dense_instance |} = (w'', Ok tt) /\
    variables (graph w'') = variables (graph w') /\
    _local_weights (self w'') = _local_weights (self w').
Proof.
  apply (second_call_under_reuse_shares_the_weights
           DenseLayer dense_args "dense" empty_graph dense_instance dense_instance
           (input_layer "encode_seqs" [32; 20; 100])
           (input_layer "decode_seqs" [32; 5; 100])
           (encode_seqs 20) (placeholder "decode_seqs" [32; 5; 100]) 32 19 4 100
           (dense_once 20).1 (dense_net 20)).
  - reflexivity.
  - reflexivity.
  - reflexivity.
  - reflexivity.
  - reflexivity.
  - reflexivity.
  - reflexivity.
  - reflexivity.
  - reflexivity.
  - reflexivity.
  - vm_compute. reflexivity.
  - simpl. lia.
Defined.

Lemma second_call_without_reuse_witness :
  exists w' w'',
    TimeDistributedLayer.__call__ tf.stack tf.unstack tf.transpose
      (input_layer "encode_seqs" [32; 20; 100]) dense_start = (w', Ok tt) /\
    TimeDistributedLayer.__call__ tf.stack tf.unstack tf.transpose
      (input_layer "decode_seqs" [32; 5; 100])
      {| graph := graph w'; self := dense_instance |} = (w'', Raise ValueError) /\
    variables (graph w'') = variables (graph w') /\
    outputs (self w'') = outputs dense_instance /\
    all_layers (self w'') = l_all_layers (input_layer "decode_seqs" [32; 5; 100]) /\
    all_params (self w'') = l_all_params (input_layer "decode_seqs" [32; 5; 100]).
Proof.
  apply (second_call_without_reuse_raises_ValueError
           DenseLayer dense_args "dense" empty_graph dense_instance dense_instance
           (input_layer "encode_seqs" [32; 20; 100])
           (input_layer "decode_seqs" [32; 5; 100])
           (encode_seqs 20) (placeholder "decode_seqs" [32; 5; 100]) 32 19 4 100
           ("dense/W", [100; 50]) [("dense/b", [50])] [32; 50]
           (dense_once 20).1 (dense_net 20)).
  - reflexivity.
  - reflexivity.
  - reflexivity.
  - reflexivity.
  - reflexivity.
  - reflexivity.
  - reflexivity.
  - reflexivity.
  - reflexivity.
  - reflexivity.
  - reflexivity.
  - reflexivity.
  - vm_compute. reflexivity.
  - simpl. lia.
Defined.

(** ** What the collection read at line 115 picks up *)

(** X11.  The collection is filtered by matching names from their start, so a
    variable that was in
    the graph before the call and whose name merely starts with the name of
    the layer's scope (a sibling layer called [time_dense_2] beside
    [time_dense], say) ends up among the layer's local weights and among
    the parameters it registers. *)
Theorem local_weights_include_variables_sharing_the_name_prefix
    (cls : LayerClass) (d : Args) (nm : string) (g : Graph) (s : Instance)
    (prev : LayerObj) (t : Tensor) (B n D : nat) (w1 : World) (net : Net)
    (v : TFVariable) :
  layer_class s = Bound (Some cls) ->
  layer_args s = Bound (Some d) ->
  dict_get d "name" = Some (PyStr nm) ->
  l_outputs prev = One t ->
  shape t = [B; S n; D] ->
  single_timestep cls d (name s) (slice t 0) {| graph := g; self := s |} = (w1, Ok net) ->
  1 <= length (shape (net_outputs net)) ->
  v ∈ variables g ->
  String.prefix (tf.join (vs_name (current_scope g)) (name s)) (var_name v) = true ->
  exists w' ws,
    TimeDistributedLayer.__call__ tf.stack tf.unstack tf.transpose prev
      {| graph := g; self := s |} = (w', Ok tt) /\
    _local_weights (self w') = Bound ws /\
    v ∈ ws /\
    v ∈ all_params (self w').
Proof.
  intros Hcls Hargs Hname Hprev Ht Hone Hrank Hv Hpre.
  destruct (call_trace cls d nm g s prev t B n D w1 net Hcls Hargs Hname Hprev Ht
              Hone Hrank) as (w' & out & created & Hcall & _ & _ & _ & Hself).
  exists w', (collection (tf.join (vs_name (current_scope g)) (name s))
                (variables g ++ created)).
  assert (v ∈ collection (tf.join (vs_name (current_scope g)) (name s))
                (variables g ++ created)) as Hin.
  { unfold collection. apply list_elem_of_filter.
    split; [by apply prefix_re_match|].
    apply elem_of_app. by left. }
  split; [exact Hcall|]. rewrite Hself. split_and!; [done|done|].
  cbn [all_params registered set_all_params]. apply elem_of_app. by right.
Qed.

Lemma local_weights_include_prefix_witness :
  exists w' ws,
    TimeDistributedLayer.__call__ tf.stack tf.unstack tf.transpose
      (input_layer "encode_seqs" [32; 20; 100])
      {| graph := graph_with_sibling; self := dense_instance |} = (w', Ok tt) /\
    _local_weights (self w') = Bound ws /\
    sibling_W ∈ ws /\
    sibling_W ∈ all_params (self w').
Proof.
  apply (local_weights_include_variables_sharing_the_name_prefix
           DenseLayer dense_args "dense" graph_with_sibling dense_instance
           (input_layer "encode_seqs" [32; 20; 100]) (encode_seqs 20) 32 19 100
           (single_timestep DenseLayer dense_args "time_dense" (slice (encode_seqs 20) 0)
              {| graph := graph_with_sibling; self := dense_instance |}).1
           (dense_net 20) sibling_W).
  - reflexivity.
  - reflexivity.
  - reflexivity.
  - reflexivity.
  - reflexivity.
  - vm_compute. reflexivity.
  - simpl. lia.
  - constructor.
  - reflexivity.
Defined.

(** ** An inner class that cannot be built *)

(** X12.  If the inner class cannot be instantiated on the first slice, because
    it rejects its arguments or the slice, or because a variable it asks
    for cannot be had, the call raises the same exception, for any number
    [S n] of timesteps: no output is produced, nothing is registered, no
    local weights are stored, and the store is the one the failed
    instantiation left. *)
Theorem inner_class_failure_is_the_call_s_failure
    (cls : LayerClass) (d : Args) (nm : string) (g : Graph) (s : Instance)
    (prev : LayerObj) (t : Tensor) (B n D : nat) (w1 : World) (e : Exn) :
  layer_class s = Bound (Some cls) ->
  layer_args s = Bound (Some d) ->
  dict_get d "name" = Some (PyStr nm) ->
  l_outputs prev = One t ->
  shape t = [B; S n; D] ->
  single_timestep cls d (name s) (slice t 0) {| graph := g; self := s |} = (w1, Raise e) ->
  exists w',
    TimeDistributedLayer.__call__ tf.stack tf.unstack tf.transpose prev
      {| graph := g; self := s |} = (w', Raise e) /\
    variables (graph w') = variables (graph w1) /\
    outputs (self w') = outputs s /\
    _local_weights (self w') = _local_weights s /\
    all_layers (self w') = l_all_layers prev /\
    all_params (self w') = l_all_params prev.
Proof.
  intros Hcls Hargs Hname Hprev Ht Hone.
  rewrite single_timestep_run in Hone. cbn zeta in Hone.
  destruct (instantiate _ _ _ _) as [w1' r'] eqn:Hin. cbn [fst snd] in Hone.
  injection Hone as <- ->.
  eexists. split.
  - eapply (call_Raise_first cls d nm g s prev t B n D); try done.
  - done.
Qed.

Lemma inner_class_failure_witness :
  exists w',
    TimeDistributedLayer.__call__ tf.stack tf.unstack tf.transpose
      (input_layer "encode_seqs" [32; 20; 100])
      {| graph := empty_graph; self := unitless_instance |} = (w', Raise ValueError) /\
    variables (graph w')
    = variables (graph (single_timestep DenseLayer unitless_args "time_dense"
                          (slice (encode_seqs 20) 0)
                          {| graph := empty_graph; self := unitless_instance |}).1) /\
    outputs (self w') = outputs unitless_instance /\
    _local_weights (self w') = _local_weights unitless_instance /\
    all_layers (self w') = l_all_layers (input_layer "encode_seqs" [32; 20; 100]) /\
    all_params (self w') = l_all_params (input_layer "encode_seqs" [32; 20; 100]).
Proof.
  apply (inner_class_failure_is_the_call_s_failure
           DenseLayer unitless_args "dense" empty_graph unitless_instance
           (input_layer "encode_seqs" [32; 20; 100]) (encode_seqs 20) 32 19 100).
  - reflexivity.
  - reflexivity.
  - reflexivity.
  - reflexivity.
  - reflexivity.
  - vm_compute. reflexivity.
Defined.

(** ** The description of a layer built with the defaults *)

(** X13.  The two attributes are not treated alike when they hold [None], the
    constructor's default.  A [layer_class] that is [None], or a callable
    without a [__name__], has no name to show and its fragment is left out;
    a [layer_args] that is [None] is formatted like any other value, so the
    description carries the fragment ["layer_args: None"]. *)
Theorem str_omits_a_nameless_class_but_shows_None_args
    (_str : list string -> M string) (w : World) :
  (layer_class (self w) = Bound None \/
   exists cls, layer_class (self w) = Bound (Some cls) /\ cls_name cls = None) ->
  layer_args (self w) = Bound None ->
  TimeDistributedLayer.__str__ _str w = _str ["layer_args: None"] w.
Proof.
  intros Hc Ha. destruct w as [g s]. cbn [self] in *.
  unfold TimeDistributedLayer.__str__.
  erewrite run_bind; cycle 1.
  { unfold TimeDistributedLayer.class_name, try_except_AttributeError, getattr, bind,
      get_self, ret, raise. cbn [self].
    destruct Hc as [-> | (cls & -> & ->)]; reflexivity. }
  erewrite run_bind; cycle 1.
  { unfold TimeDistributedLayer.args_str, try_except_AttributeError, getattr, bind,
      get_self, ret, raise. cbn [self]. rewrite Ha. reflexivity. }
  reflexivity.
Qed.

Lemma str_of_default_layer_witness :
  TimeDistributedLayer.__str__ describe {| graph := empty_graph; self := default_instance |}
  = describe ["layer_args: None"] {| graph := empty_graph; self := default_instance |}.
Proof.
  apply (str_omits_a_nameless_class_but_shows_None_args describe
           {| graph := empty_graph; self := default_instance |}).
  - left. reflexivity.
  - reflexivity.
Defined.

(** The scope name is used as a pattern: for a layer named [a.b] the
    collection read at line 115 also returns the variable [aXb/W]. *)
Example dotted_name_collects_by_pattern :
  exists w',
    TimeDistributedLayer.__call__ tf.stack tf.unstack tf.transpose
      (input_layer "x" [32; 2; 100])
      {| graph := graph_with_lookalike; self := dotted_instance |} = (w', Ok tt) /\
    var_name <$> all_params (self w') = ["aXb/W"; "a.b/dense/W"; "a.b/dense/b"].
Proof. eexists. split; [vm_compute; reflexivity|]. done. Qed.
